(** * todo-sqlite: the persistence shim and the task list engine

    A shallow embedding of [src/database/database.ts] (the key-value and the
    relational backend behind one [Database] interface), of the four
    mutations of [App.tsx] and of the filter and sort memos of
    [TaskList.tsx], followed by the properties of the specification.

    Conventions.
    - A JavaScript string is a [string]: each [ascii] is one UTF-16 code unit
      in the range U+0000..U+00FF (Basic Latin and Latin-1 Supplement, which
      holds the French text of the application). On that range
      [toLowerCase], [normalize('NFD')] followed by the removal of
      U+0300..U+036F, [trim] and the digit test are defined exactly.
    - A JavaScript number that the program stores is an integer ([Z]); the
      sort keys, which may be infinite or NaN, have their own type [jsnum].
    - Asynchronous calls are awaited one after the other, so a call is a
      function from the state of the store to its outcome and the new
      state ([M]); an outcome is a value or a thrown exception ([exn]). *)

From Stdlib Require Import ZArith NArith List String Ascii Bool Lia DecimalString.
From Stdlib Require Import Sorting.Sorted Sorting.Permutation.
Import ListNotations.

Local Open Scope string_scope.
Local Open Scope list_scope.
Local Open Scope Z_scope.

(** ** JavaScript values and strings *)

Module Js.

Inductive jsval : Type :=
| JUndefined
| JNull
| JBool (b : bool)
| JNum (n : Z)
| JStr (s : string).

(** ToBoolean. *)
Definition truthy (v : jsval) : bool :=
  match v with
  | JUndefined | JNull => false
  | JBool b => b
  | JNum n => negb (n =? 0)
  | JStr s => negb (s =? "")%string
  end.

(** [a || b]. *)
Definition js_or (a b : jsval) : jsval := if truthy a then a else b.

(** [a === b]. *)
Definition strict_eq (a b : jsval) : bool :=
  match a, b with
  | JUndefined, JUndefined => true
  | JNull, JNull => true
  | JBool x, JBool y => Bool.eqb x y
  | JNum x, JNum y => x =? y
  | JStr x, JStr y => (x =? y)%string
  | _, _ => false
  end.

(** [params[i]]: reading past the end of an array gives [undefined]. *)
Definition at_index (params : list jsval) (i : nat) : jsval :=
  nth i params JUndefined.

(** [hay.includes(needle)]. *)
Fixpoint includes (needle hay : string) : bool :=
  prefix needle hay ||
  match hay with
  | EmptyString => false
  | String _ rest => includes needle rest
  end.

(** [arr.findIndex(p)], [None] for -1. *)
Fixpoint findIndex {A : Type} (p : A -> bool) (l : list A) : option nat :=
  match l with
  | [] => None
  | x :: rest => if p x then Some O else option_map S (findIndex p rest)
  end.

(** Assignment to a field of the object held at index [i] of an array. *)
Fixpoint assign_at {A : Type} (i : nat) (f : A -> A) (l : list A) : list A :=
  match l, i with
  | [], _ => []
  | x :: rest, O => f x :: rest
  | x :: rest, S j => x :: assign_at j f rest
  end.

(** [arr.splice(i, 1)]. *)
Fixpoint splice1 {A : Type} (i : nat) (l : list A) : list A :=
  match l, i with
  | [], _ => []
  | _ :: rest, O => rest
  | x :: rest, S j => x :: splice1 j rest
  end.

(** Exceptions. [Unmodelled] is not a JavaScript error: it marks a call
    that the model of the SQL engine below does not cover. *)
Inductive error : Type :=
| ReferenceError (name : string)
| TypeError (what : string)
| EngineError (msg : string)
| Unmodelled (what : string).

Inductive exn (A : Type) : Type :=
| Ok (a : A)
| Throw (e : error).
Arguments Ok {A} a.
Arguments Throw {A} e.

(** Synchronous code that may throw. *)
Definition ebind {A B : Type} (m : exn A) (k : A -> exn B) : exn B :=
  match m with
  | Ok a => k a
  | Throw e => Throw e
  end.

(** [try { m } catch (error) { h error }]. *)
Definition ecatch {A : Type} (m : exn A) (h : error -> exn A) : exn A :=
  match m with
  | Ok a => Ok a
  | Throw e => h e
  end.

(** Awaited calls on a store [W]: the state is threaded through, and it
    survives an exception. *)
Definition M (W A : Type) : Type := W -> exn A * W.

Definition ret {W A : Type} (a : A) : M W A := fun w => (Ok a, w).

Definition throw {W A : Type} (e : error) : M W A := fun w => (Throw e, w).

Definition bind {W A B : Type} (m : M W A) (k : A -> M W B) : M W B :=
  fun w =>
    match m w with
    | (Ok a, w') => k a w'
    | (Throw e, w') => (Throw e, w')
    end.

Definition try_catch {W A : Type} (m : M W A) (h : error -> M W A) : M W A :=
  fun w =>
    match m w with
    | (Ok a, w') => (Ok a, w')
    | (Throw e, w') => h e w'
    end.

End Js.
Import Js.

Notation "x <- m ;; k" := (bind m (fun x => k))
  (at level 61, m at next level, right associativity).
Notation "x <~ m ;; k" := (ebind m (fun x => k))
  (at level 61, m at next level, right associativity).

(** The two status texts; the last letter of the second is U+00E9. *)
Definition e_acute : ascii := "233"%char.
Definition En_cours : string := "En cours".
Definition Termine : string := "Termin" ++ String e_acute "".

(** ** database.ts *)

Module database.

(** [interface Task]. At run time a field holds whatever the caller passed
    ([params: any[]]), so each field is a [jsval]; an absent field reads as
    [undefined]. *)
Record Task : Type := mkTask {
  id : jsval;
  title : jsval;
  description : jsval;
  status : jsval;
  deadline : jsval
}.

Definition set_status (v : jsval) (t : Task) : Task :=
  mkTask (id t) (title t) (description t) v (deadline t).

Definition set_deadline (v : jsval) (t : Task) : Task :=
  mkTask (id t) (title t) (description t) (status t) v.

(** The value that [runAsync] resolves to. *)
Record RunResult : Type := mkRunResult {
  rowsAffected : jsval;
  insertId : jsval
}.

(** *** The key-value backend

    AsyncStorage holds, under the key [@tasks], either nothing or the JSON
    text of an array of tasks. [JSON.parse (JSON.stringify a)] gives back
    [a] on arrays of objects with the values of [jsval] (a field that is
    [undefined] is left out and reads as [undefined] again), so the entry
    is kept decoded. *)
Definition Storage : Type := option (list Task).

(** [webDatabaseUtils.getAllTasks] and [webDatabase.getAllAsync]:
    [tasks ? JSON.parse(tasks) : []]. *)
Definition getAllTasks (st : Storage) : list Task :=
  match st with
  | Some tasks => tasks
  | None => []
  end.

Definition web_getAllAsync (st : Storage) : list Task := getAllTasks st.

(** [webDatabase.runAsync]; [now] is the reading of [Date.now()]. *)
Definition web_runAsync (sql : string) (params : list jsval) (now : Z)
    (st : Storage) : Storage * RunResult :=
  let tasks := getAllTasks st in
  let insertId := JNum 1 in
  let '(tasks, insertId) :=
    if includes "INSERT" sql then
      let newTask := {|
        id := JNum now;
        title := at_index params 0;
        description := at_index params 1;
        status := js_or (at_index params 2) (JStr En_cours);
        deadline := js_or (at_index params 3) (JStr "") |} in
      (tasks ++ [newTask], id newTask)
    else if includes "UPDATE" sql then
      if includes "SET status" sql then
        let taskId := at_index params 1 in
        match findIndex (fun t => strict_eq (id t) taskId) tasks with
        | Some i => (assign_at i (set_status (at_index params 0)) tasks, insertId)
        | None => (tasks, insertId)
        end
      else if includes "SET deadline" sql then
        let taskId := at_index params 1 in
        match findIndex (fun t => strict_eq (id t) taskId) tasks with
        | Some i => (assign_at i (set_deadline (at_index params 0)) tasks, insertId)
        | None => (tasks, insertId)
        end
      else (tasks, insertId)
    else if includes "DELETE" sql then
      let id' := at_index params 0 in
      match findIndex (fun t => strict_eq (id t) id') tasks with
      | Some index => (splice1 index tasks, insertId)
      | None => (tasks, insertId)
      end
    else (tasks, insertId) in
  (Some tasks, {| rowsAffected := JNum 1; insertId := insertId |}).

(** *** The embedded SQL engine

    [expo-sqlite] is not part of the repository; the relational backend
    is written against the four calls below. [DB] is the state of the
    database file. A statement that fails leaves the file as it was. *)

(** [SQLiteRunResult]. *)
Record SQLiteRunResult : Type := mkSQLiteRunResult {
  changes : jsval;
  lastInsertRowId : jsval
}.

Class SQLiteDatabase (DB : Type) : Type := {
  execAsync : string -> M DB unit;
  getFirstAsync : string -> list jsval -> M DB (option jsval);
  getAllAsync : string -> list jsval -> M DB (list Task);
  runAsync : string -> list jsval -> M DB SQLiteRunResult
}.

(** The statements of the program. The text of [create_tasks_sql] is the
    template literal of [setupNativeDatabase] with its line breaks and
    indentation written as single spaces. *)
Definition create_tasks_sql : string :=
  "CREATE TABLE IF NOT EXISTS tasks ( id INTEGER PRIMARY KEY AUTOINCREMENT, title TEXT, description TEXT, status TEXT, deadline TEXT );".
Definition table_info_sql : string :=
  "SELECT name FROM pragma_table_info('tasks') WHERE name = ?".
Definition add_column_sql : string :=
  "ALTER TABLE tasks ADD COLUMN deadline TEXT".
Definition select_all_sql : string := "SELECT * FROM tasks".
Definition insert_sql : string :=
  "INSERT INTO tasks (title, description, status, deadline) VALUES (?, ?, ?, ?)".
Definition delete_sql : string := "DELETE FROM tasks WHERE id = ?".
Definition update_status_sql : string :=
  "UPDATE tasks SET status = ? WHERE id = ?".
Definition update_deadline_sql : string :=
  "UPDATE tasks SET deadline = ? WHERE id = ?".

(** [value?.length]: only a string, among the values of [jsval], has a
    [length]. *)
Definition optional_length (v : jsval) : jsval :=
  match v with
  | JStr s => JNum (Z.of_nat (String.length s))
  | _ => JUndefined
  end.

Section Native.

Context {DB : Type} {engine : SQLiteDatabase DB}.

(** The schema part of [setupNativeDatabase], run on the file that
    [SQLite.openDatabaseAsync('tasks.db')] opens. *)
Definition setupNativeDatabase : M DB unit :=
  _ <- execAsync create_tasks_sql ;;
  try_catch
    (_ <- getFirstAsync table_info_sql [JStr "deadline"] ;; ret tt)
    (fun _error => execAsync add_column_sql).

(** The two closures of the handle that [setupNativeDatabase] returns;
    [console.error] has no effect on a result and is left out. *)
Definition native_getAllAsync (sql : string) (params : list jsval)
    : M DB (list Task) :=
  try_catch (getAllAsync sql params) (fun _error => ret []).

Definition native_runAsync (sql : string) (params : list jsval)
    : M DB RunResult :=
  try_catch
    (result <- runAsync sql params ;;
     ret {| rowsAffected := js_or (optional_length (changes result)) (JNum 0);
            insertId := js_or (lastInsertRowId result) (JNum 0) |})
    (fun error => throw error).

(** The device: [Platform.OS], the AsyncStorage entry, the clock behind
    [Date.now()] and the database file. [clock] gives the reading at each
    instant; [instant] advances with every mutation of the key-value
    backend. *)
Record World : Type := mkWorld {
  Platform_OS : string;
  AsyncStorage : Storage;
  clock : nat -> Z;
  instant : nat;
  file : DB
}.

Definition Date_now (w : World) : Z := clock w (instant w).

(** [type Database]. *)
Record Database : Type := mkDatabase {
  db_getAllAsync : string -> list jsval -> M World (list Task);
  db_runAsync : string -> list jsval -> M World RunResult
}.

(** [AsyncStorage.setItem(STORAGE_KEY, JSON.stringify(tasks))]. *)
Definition setItem (tasks : list Task) (w : World) : World :=
  mkWorld (Platform_OS w) (Some tasks) (clock w) (instant w) (file w).

Definition webDatabase : Database := {|
  db_getAllAsync := fun _sql _params w =>
    (Ok (web_getAllAsync (AsyncStorage w)), w);
  db_runAsync := fun sql params w =>
    let '(st, result) := web_runAsync sql params (Date_now w) (AsyncStorage w) in
    (Ok result,
     mkWorld (Platform_OS w) st (clock w) (S (instant w)) (file w))
|}.

(** An engine call made on the file of the device. *)
Definition on_file {A : Type} (m : M DB A) : M World A :=
  fun w =>
    let '(r, db) := m (file w) in
    (r, mkWorld (Platform_OS w) (AsyncStorage w) (clock w) (instant w) db).

Definition nativeDatabase : Database := {|
  db_getAllAsync := fun sql params => on_file (native_getAllAsync sql params);
  db_runAsync := fun sql params => on_file (native_runAsync sql params)
|}.

(** [openDatabase]. *)
Definition openDatabase : M World Database :=
  fun w =>
    if (Platform_OS w =? "web")%string then
      (tasks <- db_getAllAsync webDatabase select_all_sql [] ;;
       fun w =>
         if (List.length tasks =? 0)%nat
         then (Ok webDatabase, setItem [] w)
         else (Ok webDatabase, w)) w
    else
      (_ <- on_file setupNativeDatabase ;; ret nativeDatabase) w.

End Native.

End database.
Import database.

(** ** A model of the SQL engine

    The part of SQLite that the program exercises: one table [tasks], the
    eight statements above, text or [null] bound to the text columns and a
    number bound to [id]. Any other call is [Unmodelled]. A row is a [Task]
    whose missing columns read as [undefined]; [rows] is in rowid order,
    the order of [SELECT * FROM tasks]. *)

Module Sqlite.

Record File : Type := mkFile {
  columns : option (list string);   (* of [tasks]; [None]: no such table *)
  rows : list Task;
  sequence : Z;                     (* the AUTOINCREMENT counter *)
  last_rowid : Z                    (* of the connection *)
}.

Definition empty_file : File := mkFile None [] 0 0.

Definition all_columns : list string :=
  ["id"; "title"; "description"; "status"; "deadline"].

Definition has_column (c : string) (cs : list string) : bool :=
  existsb (String.eqb c) cs.

(** The first of [wanted] that the table lacks. *)
Definition missing_column (cs wanted : list string) : option string :=
  find (fun c => negb (has_column c cs)) wanted.

Definition rowid (t : Task) : Z :=
  match id t with
  | JNum n => n
  | _ => 0
  end.

Definition max_rowid (l : list Task) : Z :=
  fold_right (fun t m => Z.max (rowid t) m) 0 l.

Definition bind_text (v : jsval) : exn jsval :=
  match v with
  | JStr s => Ok (JStr s)
  | JNull => Ok JNull
  | _ => Throw (Unmodelled "a value bound to a TEXT column that is neither text nor null")
  end.

Definition bind_rowid (v : jsval) : exn Z :=
  match v with
  | JNum n => Ok n
  | _ => Throw (Unmodelled "a value compared with id that is not a number")
  end.

Definition has_rowid (n : Z) (t : Task) : bool := strict_eq (id t) (JNum n).

Definition count_rowid (n : Z) (l : list Task) : Z :=
  Z.of_nat (List.length (filter (has_rowid n) l)).

Definition no_such_table {A : Type} : M File A :=
  throw (EngineError "no such table: tasks").

Definition no_such_column {A : Type} (c : string) : M File A :=
  throw (EngineError ("no such column: " ++ c)).

(** [UPDATE tasks SET column = ? WHERE id = ?]. *)
Definition update_where (column : string) (set : jsval -> Task -> Task)
    (params : list jsval) : M File SQLiteRunResult :=
  fun f =>
    match columns f with
    | None => no_such_table f
    | Some cs =>
      if has_column column cs then
        match bind_text (at_index params 0), bind_rowid (at_index params 1) with
        | Ok v, Ok n =>
          (Ok (mkSQLiteRunResult (JNum (count_rowid n (rows f))) (JNum (last_rowid f))),
           mkFile (columns f)
                  (map (fun t => if has_rowid n t then set v t else t) (rows f))
                  (sequence f) (last_rowid f))
        | Throw e, _ | _, Throw e => (Throw e, f)
        end
      else no_such_column column f
    end.

Definition sqlite_execAsync (sql : string) : M File unit :=
  fun f =>
    if (sql =? create_tasks_sql)%string then
      match columns f with
      | None => (Ok tt, mkFile (Some all_columns) [] (sequence f) (last_rowid f))
      | Some _ => (Ok tt, f)
      end
    else if (sql =? add_column_sql)%string then
      match columns f with
      | None => no_such_table f
      | Some cs =>
        if has_column "deadline" cs
        then (Throw (EngineError "duplicate column name: deadline"), f)
        else (Ok tt, mkFile (Some (cs ++ ["deadline"]))
                            (map (set_deadline JNull) (rows f))
                            (sequence f) (last_rowid f))
      end
    else (Throw (Unmodelled sql), f).

Definition sqlite_getFirstAsync (sql : string) (params : list jsval)
    : M File (option jsval) :=
  fun f =>
    if (sql =? table_info_sql)%string then
      let cs := match columns f with Some cs => cs | None => [] end in
      match find (fun c => strict_eq (JStr c) (at_index params 0)) cs with
      | Some c => (Ok (Some (JStr c)), f)
      | None => (Ok None, f)
      end
    else (Throw (Unmodelled sql), f).

Definition sqlite_getAllAsync (sql : string) (params : list jsval)
    : M File (list Task) :=
  fun f =>
    if (sql =? select_all_sql)%string then
      match columns f with
      | None => no_such_table f
      | Some _ => (Ok (rows f), f)
      end
    else (Throw (Unmodelled sql), f).

Definition sqlite_insert (params : list jsval) : M File SQLiteRunResult :=
  fun f =>
    match columns f with
    | None => no_such_table f
    | Some cs =>
      match missing_column cs ["title"; "description"; "status"; "deadline"] with
      | Some c =>
        (Throw (EngineError ("table tasks has no column named " ++ c)), f)
      | None =>
        match bind_text (at_index params 0), bind_text (at_index params 1),
              bind_text (at_index params 2), bind_text (at_index params 3) with
        | Ok t, Ok d, Ok s, Ok dl =>
          let n := Z.max (sequence f) (max_rowid (rows f)) + 1 in
          (Ok (mkSQLiteRunResult (JNum 1) (JNum n)),
           mkFile (columns f) (rows f ++ [mkTask (JNum n) t d s dl]) n n)
        | Throw e, _, _, _ | _, Throw e, _, _
        | _, _, Throw e, _ | _, _, _, Throw e => (Throw e, f)
        end
      end
    end.

Definition sqlite_delete (params : list jsval) : M File SQLiteRunResult :=
  fun f =>
    match columns f with
    | None => no_such_table f
    | Some _ =>
      match bind_rowid (at_index params 0) with
      | Ok n =>
        (Ok (mkSQLiteRunResult (JNum (count_rowid n (rows f))) (JNum (last_rowid f))),
         mkFile (columns f) (filter (fun t => negb (has_rowid n t)) (rows f))
                (sequence f) (last_rowid f))
      | Throw e => (Throw e, f)
      end
    end.

Definition sqlite_runAsync (sql : string) (params : list jsval)
    : M File SQLiteRunResult :=
  if (sql =? insert_sql)%string then sqlite_insert params
  else if (sql =? delete_sql)%string then sqlite_delete params
  else if (sql =? update_status_sql)%string
    then update_where "status" set_status params
  else if (sql =? update_deadline_sql)%string
    then update_where "deadline" set_deadline params
  else throw (Unmodelled sql).

#[global] Instance sqlite : SQLiteDatabase File := {|
  execAsync := sqlite_execAsync;
  getFirstAsync := sqlite_getFirstAsync;
  getAllAsync := sqlite_getAllAsync;
  runAsync := sqlite_runAsync
|}.

End Sqlite.

(** ** App.tsx *)

Module App.

(** The argument of [addTask]. *)
Record NewTask : Type := mkNewTask {
  new_title : string;
  new_description : string;
  new_status : string;
  new_deadline : option string
}.

(** A property that may be absent. *)
Definition optional (o : option string) : jsval :=
  match o with
  | Some s => JStr s
  | None => JUndefined
  end.

Section App.

Context {DB : Type} {engine : SQLiteDatabase DB}.

(** The state of the component: [db], [tasks], and the device it runs on. *)
Record AppState : Type := mkApp {
  world : @World DB;
  db : option (@Database DB);
  tasks : list Task
}.

(** The effect run once on mount. *)
Definition mount (w : @World DB) : AppState :=
  match openDatabase w with
  | (Ok database, w) =>
    match db_getAllAsync database select_all_sql [] w with
    | (Ok result, w) => mkApp w (Some database) result
    | (Throw _, w) => mkApp w (Some database) []
    end
  | (Throw _, w) => mkApp w None []
  end.

(** The body shared by the four mutations: [if (!db) return], then one
    [runAsync], one reload and [setTasks]; an exception is logged and
    leaves [tasks] as it was. *)
Definition run_and_reload (sql : string) (params : list jsval)
    (app : AppState) : AppState :=
  match db app with
  | None => app
  | Some database =>
    match (_ <- db_runAsync database sql params ;;
           db_getAllAsync database select_all_sql []) (world app) with
    | (Ok updated, w) => mkApp w (db app) updated
    | (Throw _, w) => mkApp w (db app) (tasks app)
    end
  end.

Definition addTask (task : NewTask) : AppState -> AppState :=
  run_and_reload insert_sql
    [JStr (new_title task); JStr (new_description task);
     js_or (JStr (new_status task)) (JStr En_cours);
     js_or (optional (new_deadline task)) JNull].

Definition deleteTask (id : jsval) : AppState -> AppState :=
  run_and_reload delete_sql [id].

Definition updateTaskStatus (id : jsval) (newStatus : string)
    : AppState -> AppState :=
  run_and_reload update_status_sql [JStr newStatus; id].

Definition updateTaskDeadline (id : jsval) (deadline : string)
    : AppState -> AppState :=
  run_and_reload update_deadline_sql [JStr deadline; id].

(** What the user does: submit a new task, or act on the task shown at
    position [row] of [tasks], whose [id] the list passes to the handler. *)
Inductive Action : Type :=
| Add (task : NewTask)
| Delete (row : nat)
| SetStatus (row : nat) (newStatus : string)
| SetDeadline (row : nat) (deadline : string).

Definition act (app : AppState) (a : Action) : AppState :=
  match a with
  | Add task => addTask task app
  | Delete row =>
    match nth_error (tasks app) row with
    | Some t => deleteTask (id t) app
    | None => app
    end
  | SetStatus row newStatus =>
    match nth_error (tasks app) row with
    | Some t => updateTaskStatus (id t) newStatus app
    | None => app
    end
  | SetDeadline row deadline =>
    match nth_error (tasks app) row with
    | Some t => updateTaskDeadline (id t) deadline app
    | None => app
    end
  end.

Definition run (actions : list Action) (app : AppState) : AppState :=
  fold_left act actions app.

End App.

End App.

(** ** TaskList.tsx *)

Module TaskList.

(** *** Strings *)

Definition code (c : ascii) : N := N_of_ascii c.

Definition between (lo hi : N) (c : ascii) : bool :=
  ((lo <=? code c) && (code c <=? hi))%N.

(** [toLowerCase] on U+0000..U+00FF: A-Z and U+00C0..U+00DE but the
    multiplication sign U+00D7 move up by 32. *)
Definition lower_char (c : ascii) : ascii :=
  if between 65 90 c || (between 192 222 c && negb (code c =? 215)%N)
  then ascii_of_N (code c + 32)
  else c.

Fixpoint toLowerCase (s : string) : string :=
  match s with
  | EmptyString => EmptyString
  | String c rest => String (lower_char c) (toLowerCase rest)
  end.

(** [normalize('NFD').replace(/[\u0300-\u036f]/g, '')] on U+0000..U+00FF:
    the letters with a canonical decomposition lose their mark, everything
    else stays (there is no combining mark below U+0300). *)
Definition base_char (c : ascii) : ascii :=
  let n := code c in
  if between 192 197 c then "A"%char
  else if (n =? 199)%N then "C"%char
  else if between 200 203 c then "E"%char
  else if between 204 207 c then "I"%char
  else if (n =? 209)%N then "N"%char
  else if between 210 214 c then "O"%char
  else if between 217 220 c then "U"%char
  else if (n =? 221)%N then "Y"%char
  else if between 224 229 c then "a"%char
  else if (n =? 231)%N then "c"%char
  else if between 232 235 c then "e"%char
  else if between 236 239 c then "i"%char
  else if (n =? 241)%N then "n"%char
  else if between 242 246 c then "o"%char
  else if between 249 252 c then "u"%char
  else if (n =? 253)%N || (n =? 255)%N then "y"%char
  else c.

Fixpoint strip_diacritics (s : string) : string :=
  match s with
  | EmptyString => EmptyString
  | String c rest => String (base_char c) (strip_diacritics rest)
  end.

(** White space and line terminators below U+0100: tab, line feed,
    vertical tab, form feed, carriage return, space, no-break space. *)
Definition is_space (c : ascii) : bool :=
  between 9 13 c || (code c =? 32)%N || (code c =? 160)%N.

Fixpoint trimStart (s : string) : string :=
  match s with
  | EmptyString => EmptyString
  | String c rest => if is_space c then trimStart rest else s
  end.

Fixpoint trimEnd (s : string) : string :=
  match s with
  | EmptyString => EmptyString
  | String c rest =>
    match trimEnd rest with
    | EmptyString => if is_space c then EmptyString else String c EmptyString
    | kept => String c kept
    end
  end.

Definition trim (s : string) : string := trimEnd (trimStart s).

Definition is_digit (c : ascii) : bool := between 48 57 c.

Fixpoint every (p : ascii -> bool) (s : string) : bool :=
  match s with
  | EmptyString => true
  | String c rest => p c && every p rest
  end.

(** [/^\d+$/.test(s)]. *)
Definition all_digits (s : string) : bool :=
  negb (s =? "")%string && every is_digit s.

(** [String(n)] and [n.toString()] for an integer. *)
Definition String_of (n : Z) : string :=
  DecimalString.NilZero.string_of_int (Z.to_int n).

(** [s.padStart(2, '0')]. *)
Definition padStart2 (s : string) : string :=
  match String.length s with
  | O => "00"
  | S O => "0" ++ s
  | _ => s
  end.

(** [s.split('T')[0]]. *)
Fixpoint before_T (s : string) : string :=
  match s with
  | EmptyString => EmptyString
  | String c rest => if (c =? "T")%char then EmptyString else String c (before_T rest)
  end.

(** ToString. *)
Definition ToString (v : jsval) : string :=
  match v with
  | JUndefined => "undefined"
  | JNull => "null"
  | JBool true => "true"
  | JBool false => "false"
  | JNum n => String_of n
  | JStr s => s
  end.

(** A method of [String.prototype] called on [v]: a [TypeError] unless [v]
    is a string. *)
Definition as_string (v : jsval) : exn string :=
  match v with
  | JStr s => Ok s
  | JUndefined | JNull => Throw (TypeError "cannot read properties of undefined or null")
  | _ => Throw (TypeError "is not a function")
  end.

(** *** Numbers of the comparator *)

Inductive jsnum : Type :=
| Num (z : Z)
| Infinity
| NegInfinity
| NaN.

(** [a - b]. A difference of two time values is exact or rounded to a
    double of the same sign, and the sort reads the sign only. *)
Definition minus (a b : jsnum) : jsnum :=
  match a, b with
  | NaN, _ | _, NaN => NaN
  | Num x, Num y => Num (x - y)
  | Num _, Infinity => NegInfinity
  | Num _, NegInfinity => Infinity
  | Infinity, Infinity => NaN
  | Infinity, _ => Infinity
  | NegInfinity, NegInfinity => NaN
  | NegInfinity, _ => NegInfinity
  end.

(** [v > 0]; false for NaN, which the sort reads as +0. *)
Definition positive (v : jsnum) : bool :=
  match v with
  | Num z => 0 <? z
  | Infinity => true
  | NegInfinity | NaN => false
  end.

(** *** The JavaScript runtime

    What the engine, its time zone and its locale data decide. A time value
    is a number of milliseconds since the epoch. *)
Class Runtime : Type := {
  (** the time value of [new Date(s)] for a string; [None] is NaN *)
  Date_parse : string -> option Z;
  (** [getDate()], [getMonth()], [getFullYear()], in local time *)
  getDate : Z -> Z;
  getMonth : Z -> Z;
  getFullYear : Z -> Z;
  (** [toLocaleDateString('fr-FR', ...)] with the options of [formatDate] *)
  toLocaleDateString : Z -> string;
  toISOString : Z -> string;
  (** [a.localeCompare(b)] *)
  localeCompare : string -> string -> Z;
  (** Whether the component's own [const formatDate], declared below the
      two memos, is initialised when the filter memo runs. The memo runs
      during the render, above the declaration, so no runtime makes it
      [true]; the properties below are proved for both values. *)
  formatDate_initialised : bool
}.

Section TaskList.

Context {runtime : Runtime}.

(** The time value of [new Date(v)]. *)
Definition new_Date (v : jsval) : option Z :=
  match v with
  | JStr s => Date_parse s
  | JNum n => if Z.abs n <=? 8640000000000000 then Some n else None
  | JBool b => Some (if b then 1 else 0)
  | JNull => Some 0
  | JUndefined => None
  end.

(** [date.getTime()]. *)
Definition getTime (date : option Z) : jsnum :=
  match date with
  | Some t => Num t
  | None => NaN
  end.

Definition Aucune_date_definie : string :=
  "Aucune date d" ++ String e_acute "finie".

(** [formatDate], the same text at module level and inside the component. *)
Definition formatDate (dateString : jsval) : string :=
  if negb (truthy dateString) then Aucune_date_definie
  else
    match new_Date dateString with
    | None => "Date invalide"
    | Some date => toLocaleDateString date
    end.

(** The call [formatDate(...)] written inside the filter memo. *)
Definition call_formatDate (dateString : jsval) : exn string :=
  if formatDate_initialised then Ok (formatDate dateString)
  else Throw (ReferenceError "formatDate").

(** The identifier [query], read twice in the filter memo. Nothing binds
    it: the names in scope are [tasks], [searchQuery], [trimmedQuery],
    [normalizedQuery] and [task]. *)
Definition query : exn string := Throw (ReferenceError "query").

(** The callback given to [tasks.filter]. *)
Definition matches (normalizedQuery : string) (task : Task) : exn bool :=
  status_text <~ as_string (status task) ;;
  let normalizedStatus := strip_diacritics (toLowerCase status_text) in
  if includes normalizedQuery normalizedStatus then Ok true else
  title_text <~ as_string (title task) ;;
  if includes normalizedQuery (toLowerCase title_text) then Ok true else
  description_text <~ as_string (description task) ;;
  if includes normalizedQuery (toLowerCase description_text) then Ok true else
  if all_digits normalizedQuery then
    if truthy (deadline task) then
      match new_Date (deadline task) with
      | None => Ok false
      | Some date =>
        let day := padStart2 (String_of (getDate date)) in
        let month := padStart2 (String_of (getMonth date + 1)) in
        let year := getFullYear date in
        if includes normalizedQuery day
           || includes normalizedQuery month
           || includes normalizedQuery (String_of year)
        then Ok true
        else Ok false
      end
    else Ok false
  else
  if truthy (deadline task) then
    ecatch
      (formatted <~ call_formatDate (deadline task) ;;
       let formattedDate := toLowerCase formatted in
       q <~ query ;;
       if includes q formattedDate then Ok true else
       match new_Date (deadline task) with
       | Some date =>
         let isoDate := before_T (toISOString date) in
         q <~ query ;;
         if includes q isoDate then Ok true else Ok false
       | None => Ok false
       end)
      (fun _error => Ok false)
  else Ok false.

(** [tasks.filter(callback)] with a callback that may throw. *)
Fixpoint filter_exn (callback : Task -> exn bool) (tasks : list Task)
    : exn (list Task) :=
  match tasks with
  | [] => Ok []
  | task :: rest =>
    keep <~ callback task ;;
    kept <~ filter_exn callback rest ;;
    Ok (if keep then task :: kept else kept)
  end.

Definition filtering_failed : string :=
  "Une erreur est survenue lors du filtrage des t" ++ String "226"%char "ches".

(** The memo [filteredTasks]: the list it yields and the message it gives
    to [setError], if any. [tasks] is an array, so [!tasks] is false. *)
Definition filteredTasks (tasks : list Task) (searchQuery : string)
    : list Task * option string :=
  let attempt :=
    let trimmedQuery := trim searchQuery in
    if (trimmedQuery =? "")%string then Ok tasks
    else
      let normalizedQuery := strip_diacritics (toLowerCase trimmedQuery) in
      filter_exn (matches normalizedQuery) tasks in
  match attempt with
  | Ok shown => (shown, None)
  | Throw _ => ([], Some filtering_failed)
  end.

(** *** Sorting *)

Inductive SortBy : Type := by_status | by_deadline.
Inductive SortOrder : Type := asc | desc.

(** The comparator given to [sort]. *)
Definition compareTasks (sortBy : SortBy) (sortOrder : SortOrder)
    (a b : Task) : exn jsnum :=
  match sortBy with
  | by_status =>
    match sortOrder with
    | asc => s <~ as_string (status a) ;; Ok (Num (localeCompare s (ToString (status b))))
    | desc => s <~ as_string (status b) ;; Ok (Num (localeCompare s (ToString (status a))))
    end
  | by_deadline =>
    let dateA := if truthy (deadline a) then getTime (new_Date (deadline a)) else Infinity in
    let dateB := if truthy (deadline b) then getTime (new_Date (deadline b)) else Infinity in
    Ok (match sortOrder with
        | asc => minus dateA dateB
        | desc => minus dateB dateA
        end)
  end.

(** [Array.prototype.sort] is stable, and when the comparator is a
    consistent ordering of the elements the sorted array is the same
    whatever the algorithm. The model inserts each element, from the last
    to the first, in front of the sorted rest and moves it right past the
    elements it is greater than. *)
Fixpoint insert_sorted (compare : Task -> Task -> exn jsnum) (x : Task)
    (sorted : list Task) : exn (list Task) :=
  match sorted with
  | [] => Ok [x]
  | y :: rest =>
    v <~ compare x y ;;
    if positive v
    then (placed <~ insert_sorted compare x rest ;; Ok (y :: placed))
    else Ok (x :: sorted)
  end.

Fixpoint sort (compare : Task -> Task -> exn jsnum) (l : list Task)
    : exn (list Task) :=
  match l with
  | [] => Ok []
  | x :: rest => sorted <~ sort compare rest ;; insert_sorted compare x sorted
  end.

(** The memo [sortedTasks]. *)
Definition sortedTasks (filteredTasks : list Task) (sortBy : SortBy)
    (sortOrder : SortOrder) : exn (list Task) :=
  sort (compareTasks sortBy sortOrder) filteredTasks.

End TaskList.

End TaskList.

(** ** The words of the specification about the sort

    A deadline is absent when it is falsy, parseable when [new Date] gives
    it a time value; the rank of a task is that time value, or nothing
    (the [Infinity] of the comparator) when the deadline is absent. *)

Module SortSpec.

Import TaskList.

Section SortSpec.

Context {runtime : Runtime}.

Definition absent (t : Task) : bool := negb (truthy (deadline t)).

Definition parseable (t : Task) : bool :=
  truthy (deadline t) &&
  match new_Date (deadline t) with
  | Some _ => true
  | None => false
  end.

(** Absent or unparseable. *)
Definition undated (t : Task) : bool := negb (parseable t).

(** The [dateA] and [dateB] of the comparator. *)
Definition sort_key (t : Task) : jsnum :=
  if truthy (deadline t) then getTime (new_Date (deadline t)) else Infinity.

Definition rank (t : Task) : option Z :=
  if truthy (deadline t) then new_Date (deadline t) else None.

Definition number_of_rank (k : option Z) : jsnum :=
  match k with
  | Some t => Num t
  | None => Infinity
  end.

Definition same_rank (k : option Z) (t : Task) : bool :=
  match k, rank t with
  | Some x, Some y => x =? y
  | None, None => true
  | _, _ => false
  end.

(** No parseable deadline comes after an absent or unparseable one. *)
Fixpoint undated_last (l : list Task) : bool :=
  match l with
  | [] => true
  | t :: rest =>
    (if undated t then forallb undated rest else true) && undated_last rest
  end.

(** No parseable deadline comes before an absent or unparseable one. *)
Fixpoint undated_first (l : list Task) : bool :=
  match l with
  | [] => true
  | t :: rest =>
    (if parseable t then forallb parseable rest else true) && undated_first rest
  end.

(** Every deadline of the list is absent or parseable. *)
Definition no_invalid_date (l : list Task) : Prop :=
  Forall (fun t => absent t = true \/ parseable t = true) l.

End SortSpec.

(** Earlier time value first, no time value last. *)
Definition earlier (a b : option Z) : bool :=
  match a, b with
  | Some x, Some y => x <? y
  | Some _, None => true
  | None, _ => false
  end.

(** The insertion of [sort] for a comparator that does not throw;
    [after x y] says that [x] is to stand after [y]. *)
Fixpoint place (after : Task -> Task -> bool) (x : Task) (sorted : list Task)
    : list Task :=
  match sorted with
  | [] => [x]
  | y :: rest => if after x y then y :: place after x rest else x :: sorted
  end.

Fixpoint insertion_sort (after : Task -> Task -> bool) (l : list Task)
    : list Task :=
  match l with
  | [] => []
  | x :: rest => place after x (insertion_sort after rest)
  end.

End SortSpec.

(** ** A runtime for the examples

    An engine in the UTC time zone whose [Date] reads the date-only form
    [YYYY-MM-DD] of a calendar day, which every engine reads as midnight
    UTC, and nothing else. Its [localeCompare] orders by code unit; the
    examples built on this runtime sort by deadline and never call it. *)

Module Utc.

Import TaskList.

Definition digit (c : ascii) : option Z :=
  if is_digit c then Some (Z.of_N (code c) - 48) else None.

Fixpoint number_from (acc : Z) (s : string) : option Z :=
  match s with
  | EmptyString => Some acc
  | String c rest =>
    match digit c with
    | Some d => number_from (10 * acc + d) rest
    | None => None
    end
  end.

Definition leap (y : Z) : bool :=
  ((y mod 4 =? 0) && negb (y mod 100 =? 0)) || (y mod 400 =? 0).

Definition days_in_month (y m : Z) : Z :=
  if m =? 2 then (if leap y then 29 else 28)
  else if (m =? 4) || (m =? 6) || (m =? 9) || (m =? 11) then 30
  else 31.

(** Days from 1970-01-01 to the given day of the proleptic Gregorian
    calendar, and back. *)
Definition days_from_civil (y m d : Z) : Z :=
  let y := if m <=? 2 then y - 1 else y in
  let era := y / 400 in
  let yoe := y - era * 400 in
  let doy := (153 * (if 2 <? m then m - 3 else m + 9) + 2) / 5 + d - 1 in
  let doe := yoe * 365 + yoe / 4 - yoe / 100 + doy in
  era * 146097 + doe - 719468.

Definition civil_from_days (z : Z) : Z * Z * Z :=
  let z := z + 719468 in
  let era := z / 146097 in
  let doe := z - era * 146097 in
  let yoe := (doe - doe / 1460 + doe / 36524 - doe / 146096) / 365 in
  let doy := doe - (365 * yoe + yoe / 4 - yoe / 100) in
  let mp := (5 * doy + 2) / 153 in
  let d := doy - (153 * mp + 2) / 5 + 1 in
  let m := if mp <? 10 then mp + 3 else mp - 9 in
  let y := yoe + era * 400 in
  (if m <=? 2 then y + 1 else y, m, d).

Definition ms_per_day : Z := 86400000.

Definition parse (s : string) : option Z :=
  if (String.length s =? 10)%nat
     && (substring 4 1 s =? "-")%string && (substring 7 1 s =? "-")%string
  then
    match number_from 0 (substring 0 4 s), number_from 0 (substring 5 2 s),
          number_from 0 (substring 8 2 s) with
    | Some y, Some m, Some d =>
      if (1 <=? m) && (m <=? 12) && (1 <=? d) && (d <=? days_in_month y m)
      then Some (days_from_civil y m d * ms_per_day)
      else None
    | _, _, _ => None
    end
  else None.

Definition year_of (t : Z) : Z := fst (fst (civil_from_days (t / ms_per_day))).
Definition month_of (t : Z) : Z := snd (fst (civil_from_days (t / ms_per_day))).
Definition day_of (t : Z) : Z := snd (civil_from_days (t / ms_per_day)).

Fixpoint zeros (n : nat) : string :=
  match n with
  | O => EmptyString
  | S k => String "0" (zeros k)
  end.

(** A number between 0 and 10^width - 1 on [width] digits. *)
Definition padded (width : nat) (n : Z) : string :=
  let s := String_of n in
  zeros (width - String.length s) ++ s.

Definition hours_of (t : Z) : Z := (t mod ms_per_day) / 3600000.
Definition minutes_of (t : Z) : Z := (t mod 3600000) / 60000.
Definition seconds_of (t : Z) : Z := (t mod 60000) / 1000.

(** For the years 0 to 9999. *)
Definition iso (t : Z) : string :=
  padded 4 (year_of t) ++ "-" ++ padded 2 (month_of t) ++ "-" ++
  padded 2 (day_of t) ++ "T" ++ padded 2 (hours_of t) ++ ":" ++
  padded 2 (minutes_of t) ++ ":" ++ padded 2 (seconds_of t) ++ "." ++
  padded 3 (t mod 1000) ++ "Z".

Definition french (t : Z) : string :=
  padded 2 (day_of t) ++ "/" ++ padded 2 (month_of t) ++ "/" ++
  String_of (year_of t) ++ " " ++ padded 2 (hours_of t) ++ ":" ++
  padded 2 (minutes_of t).

Definition by_code_unit (a b : string) : Z :=
  match String.compare a b with
  | Lt => -1
  | Eq => 0
  | Gt => 1
  end.

Definition runtime : Runtime := {|
  Date_parse := parse;
  getDate := day_of;
  getMonth := fun t => month_of t - 1;
  getFullYear := year_of;
  toLocaleDateString := french;
  toISOString := iso;
  localeCompare := by_code_unit;
  formatDate_initialised := false
|}.

End Utc.

(** ** The words of the specification about the two backends

    What a sequence of actions is meant to leave, whatever the backend: a
    list of entries (title, description, status, deadline) in the order of
    their creation, an absent deadline being the empty string. A backend
    shows such a list through its tasks, ids apart. *)

Module Converge.

Import App.

Definition Entry : Type := (jsval * jsval * jsval * jsval)%type.

Definition entry_of_new (task : NewTask) : Entry :=
  (JStr (new_title task), JStr (new_description task),
   js_or (JStr (new_status task)) (JStr En_cours),
   js_or (optional (new_deadline task)) (JStr "")).

Definition entry_set_status (v : jsval) (e : Entry) : Entry :=
  let '(t, d, _, dl) := e in (t, d, v, dl).

Definition entry_set_deadline (v : jsval) (e : Entry) : Entry :=
  let '(t, d, s, _) := e in (t, d, s, v).

Definition spec_act (l : list Entry) (a : Action) : list Entry :=
  match a with
  | Add task => l ++ [entry_of_new task]
  | Delete row => splice1 row l
  | SetStatus row newStatus => assign_at row (entry_set_status (JStr newStatus)) l
  | SetDeadline row deadline => assign_at row (entry_set_deadline (JStr deadline)) l
  end.

Definition spec_run (actions : list Action) : list Entry :=
  fold_left spec_act actions [].

(** The entry that a task of the key-value backend shows. *)
Definition web_entry (t : Task) : Entry :=
  (title t, description t, status t, deadline t).

(** The entry that a row of the relational backend shows: NULL is its
    absent deadline. *)
Definition native_entry (t : Task) : Entry :=
  (title t, description t, status t,
   match deadline t with
   | JNull => JStr ""
   | v => v
   end).

(** Equal up to the id. *)
Definition same_but_id (x y : Task) : Prop :=
  title x = title y /\ description x = description y /\
  status x = status y /\ deadline x = deadline y.

(** Equal up to the id and to the way an absent deadline is stored, [x]
    being a row of the relational backend and [y] a task of the key-value
    backend. *)
Definition same_task (x y : Task) : Prop :=
  title x = title y /\ description x = description y /\
  status x = status y /\
  (deadline x = deadline y \/ (deadline x = JNull /\ deadline y = JStr "")).

(** No two tasks of the list have the same id. *)
Fixpoint distinct_ids (l : list Task) : Prop :=
  match l with
  | [] => True
  | t :: rest =>
    Forall (fun u => strict_eq (id t) (id u) = false) rest /\ distinct_ids rest
  end.

(** Successive mutations of the key-value backend read different times. *)
Definition strictly_increasing (now : nat -> Z) : Prop :=
  forall i j, (i < j)%nat -> now i < now j.

(** What holds of the application on the relational backend after every
    action: the handle is the native one, [tasks] is the content of the
    table, the ids are distinct numbers that the counter has passed. *)
Definition native_inv (a : @AppState Sqlite.File) : Prop :=
  exists os st clk inst rows seq last,
    a = mkApp (mkWorld os st clk inst
                 (Sqlite.mkFile (Some Sqlite.all_columns) rows seq last))
              (Some nativeDatabase) rows /\
    distinct_ids rows /\
    Forall (fun u => exists n, id u = JNum n /\ n <= seq) rows.

(** And on the key-value backend: the handle is the web one, [tasks] is
    the stored collection, the ids are readings of the clock at distinct
    past instants. *)
Definition web_inv (now : nat -> Z) (a : @AppState Sqlite.File) : Prop :=
  exists inst f stored,
    a = mkApp (mkWorld "web" (Some stored) now inst f) (Some webDatabase) stored /\
    distinct_ids stored /\
    Forall (fun u => exists i, (i < inst)%nat /\ id u = JNum (now i)) stored.

End Converge.

(** ** Sample data *)

Definition three_tasks : list Task :=
  [mkTask (JNum 1) (JStr "Buy milk") (JStr "") (JStr En_cours) (JStr "");
   mkTask (JNum 2) (JStr "Call Ana") (JStr "at noon") (JStr En_cours) (JStr "2024-01-05");
   mkTask (JNum 3) (JStr "Pay rent") (JStr "") (JStr Termine) (JStr "")].

(** A database file from before the deadline column, with one task. *)
Definition legacy_file : Sqlite.File :=
  Sqlite.mkFile (Some ["id"; "title"; "description"; "status"])
    [mkTask (JNum 1) (JStr "Buy milk") (JStr "") (JStr En_cours) JUndefined]
    1 0.

(** The file once [tasks] has its five columns, empty. *)
Definition fresh_file : Sqlite.File :=
  Sqlite.mkFile (Some Sqlite.all_columns) [] 0 0.

Definition buy_milk_params : list jsval :=
  [JStr "Buy milk"; JStr ""; JStr En_cours; JNull].

(** The words of the specification about the filter: a task is done when
    its status is the second status text; a field contains a text when it
    is a string whose lower-case form includes it; a task is well typed
    when it fits [interface Task]. *)
Definition is_done (t : Task) : bool := strict_eq (status t) (JStr Termine).

Definition text_contains (q : string) (v : jsval) : bool :=
  match v with
  | JStr s => includes q (TaskList.toLowerCase s)
  | _ => false
  end.

Definition well_typed (t : Task) : Prop :=
  (status t = JStr En_cours \/ status t = JStr Termine) /\
  (exists s, title t = JStr s) /\ (exists s, description t = JStr s).

Definition termine_query : string := "termin" ++ String e_acute "".

Definition rapport : Task :=
  mkTask (JNum 1) (JStr "Rapport termine") (JStr "") (JStr En_cours) (JStr "").

Definition milk_by_january : Task :=
  mkTask (JNum 1) (JStr "Buy milk") (JStr "") (JStr En_cours) (JStr "2024-01-05").

Definition buy_milk : Task :=
  mkTask (JNum 2) (JStr "Buy milk") (JStr "") (JStr En_cours) (JStr "").

Definition call_ana : Task :=
  mkTask (JNum 3) (JStr "Call Ana") (JStr "") (JStr En_cours) (JStr "2024-01-05").

Definition pay_rent : Task :=
  mkTask (JNum 4) (JStr "Pay rent") (JStr "") (JStr Termine) JNull.

Definition file_taxes : Task :=
  mkTask (JNum 5) (JStr "File taxes") (JStr "") (JStr En_cours) (JStr "2023-12-31").

Definition someday : Task :=
  mkTask (JNum 6) (JStr "Learn Rocq") (JStr "") (JStr En_cours) (JStr "not-a-date").

(** A browser and a phone, before the application is first opened. *)
Definition web_world (now : nat -> Z) : @World Sqlite.File :=
  mkWorld "web" None now O Sqlite.empty_file.

Definition native_world (f : Sqlite.File) : @World Sqlite.File :=
  mkWorld "ios" None (fun _ => 0) O f.

(** A clock that moves by a millisecond between two mutations. *)
Definition sample_clock (i : nat) : Z := 1700000000000 + Z.of_nat i.

Definition add_buy_milk : App.Action :=
  App.Add (App.mkNewTask "Buy milk" "" "En cours" None).

Definition sample_actions : list App.Action :=
  [add_buy_milk;
   App.Add (App.mkNewTask "Call Ana" "at noon" "" (Some "2024-01-05"));
   App.SetStatus 0 Termine;
   App.Add (App.mkNewTask "Pay rent" "" "En cours" (Some ""));
   App.Delete 1;
   App.SetDeadline 1 "2024-03-01";
   App.Delete 5].

(** ** TaskForm.tsx *)

Module TaskForm.

(** The four pieces of state of the form. *)
Record FormState : Type := mkForm {
  form_title : string;
  form_description : string;
  form_status : string;
  form_deadline : string
}.

Definition initial_form : FormState := mkForm "" "" "En cours" "".

(** [handleSubmit]: the state of the form afterwards and the task given to
    [onSubmit], if any. [status] has no setter and keeps its value. *)
Definition handleSubmit (form : FormState) : FormState * option App.NewTask :=
  if (String.length (TaskList.trim (form_title form)) =? 0)%nat then (form, None)
  else
    (mkForm "" "" (form_status form) "",
     Some (App.mkNewTask (form_title form) (form_description form)
             (form_status form) None)).

End TaskForm.

(** ** The handlers that TaskList.tsx and App.tsx wire together *)

Module Handlers.

Import App.

(** [<TaskForm onSubmit={addTask} />]. *)
Definition submit (form : TaskForm.FormState) (app : @AppState Sqlite.File)
    : TaskForm.FormState * @AppState Sqlite.File :=
  match TaskForm.handleSubmit form with
  | (form', Some task) => (form', addTask task app)
  | (form', None) => (form', app)
  end.

(** The press on the status badge of the task shown at position [row]:
    [task.status === 'Termine' ? 'En cours' : 'Termine'], with the accent,
    given to [onUpdateStatus]. *)
Definition toggled (t : Task) : string :=
  if strict_eq (status t) (JStr Termine) then En_cours else Termine.

Definition press_status (row : nat) (app : @AppState Sqlite.File)
    : @AppState Sqlite.File :=
  match nth_error (tasks app) row with
  | Some t => updateTaskStatus (id t) (toggled t) app
  | None => app
  end.

End Handlers.

(** ** More words about the filter

    A query once trimmed, lower-cased and stripped of its accents; the
    match of a query on the texts of a task and on the day, month and year
    of its deadline. *)

Module FilterSpec.

Import TaskList.

Definition normalized (searchQuery : string) : string :=
  strip_diacritics (toLowerCase (trim searchQuery)).

Definition strings_only (t : Task) : Prop :=
  (exists s, status t = JStr s) /\ (exists s, title t = JStr s) /\
  (exists s, description t = JStr s).

Definition status_contains (q : string) (v : jsval) : bool :=
  match v with
  | JStr s => includes q (strip_diacritics (toLowerCase s))
  | _ => false
  end.

Definition text_matches (q : string) (t : Task) : bool :=
  status_contains q (status t)
  || text_contains q (title t) || text_contains q (description t).

Definition date_matches {runtime : Runtime} (q : string) (t : Task) : bool :=
  truthy (deadline t) &&
  match new_Date (deadline t) with
  | None => false
  | Some date =>
    includes q (padStart2 (String_of (getDate date)))
    || includes q (padStart2 (String_of (getMonth date + 1)))
    || includes q (String_of (getFullYear date))
  end.


End FilterSpec.

(** A task whose title has an accent. *)
Definition cafe : Task :=
  mkTask (JNum 1) (JStr ("Caf" ++ String e_acute "")) (JStr "") (JStr En_cours)
    (JStr "").

(** A table with one row. *)
Definition one_row_file : Sqlite.File :=
  Sqlite.mkFile (Some Sqlite.all_columns)
    [mkTask (JNum 1) (JStr "Buy milk") (JStr "") (JStr En_cours) JNull] 1 0.

(** An engine that cannot open its file. *)
Definition broken_engine : SQLiteDatabase unit := {|
  execAsync := fun _ => throw (EngineError "disk I/O error");
  getFirstAsync := fun _ _ => throw (EngineError "disk I/O error");
  getAllAsync := fun _ _ => throw (EngineError "disk I/O error");
  runAsync := fun _ _ => throw (EngineError "disk I/O error")
|}.

(** * Properties *)

Import App TaskList.

(** A sample task fits [interface Task]. *)
Ltac typecheck_task :=
  split; [first [left; reflexivity | right; reflexivity]
         | split; eexists; reflexivity].

(** A mutation of [App.tsx] run on the key-value handle. *)
Ltac run_on_web :=
  unfold deleteTask, updateTaskStatus, updateTaskDeadline, run_and_reload, bind;
  cbn [db world db_runAsync db_getAllAsync webDatabase AsyncStorage Date_now
       clock instant Platform_OS file].


Example utc_parse_example :
  Utc.parse "2024-01-05" = Some 1704412800000 /\
  Utc.parse "2024-03-01" = Some 1709251200000 /\
  Utc.parse "not-a-date" = None /\
  Utc.iso 1704412800000 = "2024-01-05T00:00:00.000Z" /\
  Utc.french 1704412800000 = "05/01/2024 00:00".
Proof. vm_compute. repeat split. Qed.

(** ** The key-value backend *)

Section WebBackend.

Context {DB : Type} {engine : SQLiteDatabase DB}.

(** C5. Whatever the statement text, the parameters and the stored
    collection, [runAsync] of the key-value backend resolves, and to a
    result whose [rowsAffected] is 1; an update or a delete whose id matches
    no stored task is no exception. *)
Theorem web_rowsAffected_is_1 :
  forall (sql : string) (params : list jsval) (w : @World DB),
    exists (result : RunResult) (w' : @World DB),
      db_runAsync webDatabase sql params w = (Ok result, w') /\
      rowsAffected result = JNum 1.
Proof.
  intros sql params w. cbn [db_runAsync webDatabase].
  destruct (web_runAsync sql params (Date_now w) (AsyncStorage w))
    as [st result] eqn:E.
  exists result. eexists. split; [reflexivity|].
  unfold web_runAsync in E.
  repeat match type of E with
  | context [if ?c then _ else _] => destruct c
  | context [match findIndex ?p ?l with _ => _ end] => destruct (findIndex p l)
  end; inversion E; reflexivity.
Qed.

End WebBackend.

Lemma findIndex_none {A : Type} (p : A -> bool) (l : list A) :
  (forall x, In x l -> p x = false) -> findIndex p l = None.
Proof.
  induction l as [|a l IH]; intros H; simpl; [reflexivity|].
  rewrite (H a (or_introl eq_refl)).
  rewrite IH; [reflexivity|]. intros x Hx. apply H. now right.
Qed.

Lemma findIndex_first {A : Type} (p : A -> bool) (l1 : list A) (x : A) (l2 : list A) :
  (forall u, In u l1 -> p u = false) -> p x = true ->
  findIndex p (l1 ++ x :: l2) = Some (List.length l1).
Proof.
  induction l1 as [|a l1 IH]; intros H Hx; simpl.
  - now rewrite Hx.
  - rewrite (H a (or_introl eq_refl)).
    rewrite IH; [reflexivity| |assumption].
    intros u Hu. apply H. now right.
Qed.

Lemma assign_at_middle {A : Type} (f : A -> A) (l1 : list A) (x : A) (l2 : list A) :
  assign_at (List.length l1) f (l1 ++ x :: l2) = l1 ++ f x :: l2.
Proof. induction l1 as [|a l1 IH]; simpl; [reflexivity|now rewrite IH]. Qed.

Lemma splice1_middle {A : Type} (l1 : list A) (x : A) (l2 : list A) :
  splice1 (List.length l1) (l1 ++ x :: l2) = l1 ++ l2.
Proof. induction l1 as [|a l1 IH]; simpl; [reflexivity|now rewrite IH]. Qed.

(** C10. A call that the key-value backend reads as an update of the status
    or of the deadline leaves the stored collection as it was when no task
    has the id of [params[1]]; otherwise the first task with that id gets
    [params[0]] in the one field named by the statement, keeps its other
    fields, and the tasks before and after it are untouched. *)
Theorem web_update_frame :
  forall (sql : string) (params : list jsval) (now : Z) (st : Storage),
    includes "INSERT" sql = false ->
    includes "UPDATE" sql = true ->
    includes "SET status" sql = true \/ includes "SET deadline" sql = true ->
    let taskId := at_index params 1 in
    let before := getAllTasks st in
    let after := getAllTasks (fst (web_runAsync sql params now st)) in
    ((forall t, In t before -> strict_eq (id t) taskId = false) ->
     after = before) /\
    (forall l1 t l2,
       before = l1 ++ t :: l2 ->
       (forall u, In u l1 -> strict_eq (id u) taskId = false) ->
       strict_eq (id t) taskId = true ->
       exists t',
         after = l1 ++ t' :: l2 /\
         id t' = id t /\ title t' = title t /\ description t' = description t /\
         if includes "SET status" sql
         then status t' = at_index params 0 /\ deadline t' = deadline t
         else deadline t' = at_index params 0 /\ status t' = status t).
Proof.
  intros sql params now st Hins Hupd Hset taskId before after.
  subst after. unfold web_runAsync. rewrite Hins, Hupd.
  fold before. fold taskId. split.
  - intros Hnone.
    rewrite (findIndex_none _ _ Hnone).
    destruct (includes "SET status" sql); [reflexivity|].
    destruct (includes "SET deadline" sql); reflexivity.
  - intros l1 t l2 Hsplit Hl1 Ht.
    rewrite Hsplit.
    rewrite (findIndex_first (fun t0 => strict_eq (id t0) taskId) l1 t l2 Hl1 Ht).
    destruct (includes "SET status" sql) eqn:Hs.
    + exists (set_status (at_index params 0) t). simpl.
      rewrite assign_at_middle. repeat split.
    + destruct Hset as [Hset|Hset]; [discriminate|]. rewrite Hset.
      exists (set_deadline (at_index params 0) t). simpl.
      rewrite assign_at_middle. repeat split.
Qed.

Lemma web_update_frame_witness :
  (getAllTasks (fst (web_runAsync update_deadline_sql [JStr "2024-03-01"; JNum 7]
                       0 (Some three_tasks))) = three_tasks) /\
  (exists t',
     getAllTasks (fst (web_runAsync update_status_sql [JStr Termine; JNum 2]
                         0 (Some three_tasks)))
     = [mkTask (JNum 1) (JStr "Buy milk") (JStr "") (JStr En_cours) (JStr "")]
       ++ t' :: [mkTask (JNum 3) (JStr "Pay rent") (JStr "") (JStr Termine) (JStr "")] /\
     id t' = JNum 2 /\ title t' = JStr "Call Ana" /\
     description t' = JStr "at noon" /\
     status t' = JStr Termine /\ deadline t' = JStr "2024-01-05").
Proof.
  split.
  - apply (web_update_frame update_deadline_sql [JStr "2024-03-01"; JNum 7]
             0 (Some three_tasks) eq_refl eq_refl (or_intror eq_refl)).
    intros t Ht. simpl in Ht.
    destruct Ht as [<-|[<-|[<-|[]]]]; reflexivity.
  - destruct (web_update_frame update_status_sql [JStr Termine; JNum 2]
                0 (Some three_tasks) eq_refl eq_refl (or_introl eq_refl))
      as [_ H].
    apply (H [mkTask (JNum 1) (JStr "Buy milk") (JStr "") (JStr En_cours) (JStr "")]
             (mkTask (JNum 2) (JStr "Call Ana") (JStr "at noon") (JStr En_cours) (JStr "2024-01-05"))
             [mkTask (JNum 3) (JStr "Pay rent") (JStr "") (JStr Termine) (JStr "")]
             eq_refl).
    + intros u Hu. simpl in Hu. destruct Hu as [<-|[]]. reflexivity.
    + reflexivity.
Defined.

(** ** The relational backend *)

Section NativeBackend.

Context {DB : Type} {engine : SQLiteDatabase DB}.

(** C7. When the engine fails on a query, the relational backend gives the
    caller an empty array; when it fails on a mutation, the caller gets the
    same exception. *)
Theorem native_failure_policy :
  forall (sql : string) (params : list jsval) (w : @World DB)
         (e : error) (db' : DB),
    (getAllAsync sql params (file w) = (Throw e, db') ->
     exists w', db_getAllAsync nativeDatabase sql params w = (Ok [], w')
                /\ file w' = db') /\
    (runAsync sql params (file w) = (Throw e, db') ->
     exists w', db_runAsync nativeDatabase sql params w = (Throw e, w')
                /\ file w' = db').
Proof.
  intros sql params w e db'. split; intros H; eexists;
    cbn [db_getAllAsync db_runAsync nativeDatabase];
    unfold on_file, native_getAllAsync, native_runAsync, try_catch, bind, ret, throw;
    rewrite H; split; reflexivity.
Qed.

(** What the backend makes of a successful mutation of the engine. *)
Lemma native_runAsync_ok :
  forall (sql : string) (params : list jsval) (db db' : DB)
         (result : SQLiteRunResult),
    runAsync sql params db = (Ok result, db') ->
    native_runAsync sql params db
    = (Ok {| rowsAffected := js_or (optional_length (changes result)) (JNum 0);
             insertId := js_or (lastInsertRowId result) (JNum 0) |}, db').
Proof.
  intros sql params db db' result H.
  unfold native_runAsync, try_catch, bind, ret. now rewrite H.
Qed.

(** A change count is a number, a number has no [length], and so
    [rowsAffected] is 0 whatever the count. *)
Lemma native_rowsAffected_of_count :
  forall (sql : string) (params : list jsval) (db db' : DB)
         (count : Z) (rowid : jsval),
    runAsync sql params db = (Ok (mkSQLiteRunResult (JNum count) rowid), db') ->
    exists result,
      native_runAsync sql params db = (Ok result, db') /\
      rowsAffected result = JNum 0 /\
      insertId result = js_or rowid (JNum 0).
Proof.
  intros sql params db db' count rowid H.
  eexists. rewrite (native_runAsync_ok _ _ _ _ _ H). repeat split.
Qed.

End NativeBackend.

Lemma native_failure_policy_witness :
  (exists w', db_getAllAsync nativeDatabase select_all_sql []
                (native_world Sqlite.empty_file) = (Ok [], w')
              /\ file w' = Sqlite.empty_file) /\
  (exists w', db_runAsync nativeDatabase insert_sql buy_milk_params
                (native_world legacy_file)
              = (Throw (EngineError "table tasks has no column named deadline"), w')
              /\ file w' = legacy_file).
Proof.
  split.
  - apply (native_failure_policy select_all_sql [] (native_world Sqlite.empty_file)
             (EngineError "no such table: tasks") Sqlite.empty_file).
    reflexivity.
  - apply (native_failure_policy insert_sql buy_milk_params (native_world legacy_file)
             (EngineError "table tasks has no column named deadline") legacy_file).
    reflexivity.
Defined.

(** C6. The first insertion into the new table: the engine reports one
    change and row id 1, and the relational backend resolves to
    [rowsAffected] 0 and [insertId] 1. *)
Theorem native_rowsAffected_after_insert :
  exists f',
    runAsync insert_sql buy_milk_params fresh_file
    = (Ok (mkSQLiteRunResult (JNum 1) (JNum 1)), f') /\
    native_runAsync insert_sql buy_milk_params fresh_file
    = (Ok (mkRunResult (JNum 0) (JNum 1)), f').
Proof. eexists. split; reflexivity. Qed.

(** The schema after [setupNativeDatabase] on a file without the table,
    and on a file that has the five columns. *)
Lemma setup_creates_table :
  setupNativeDatabase Sqlite.empty_file = (Ok tt, fresh_file).
Proof. reflexivity. Qed.

Lemma setup_keeps_existing_table :
  forall (f : Sqlite.File) (cs : list string),
    Sqlite.columns f = Some cs ->
    setupNativeDatabase f = (Ok tt, f).
Proof.
  intros f cs H.
  unfold setupNativeDatabase, bind, try_catch, ret. cbn.
  unfold Sqlite.sqlite_execAsync, Sqlite.sqlite_getFirstAsync. cbn.
  rewrite H. cbn. rewrite H.
  destruct (find (fun c => (c =? "deadline")%string) cs); reflexivity.
Qed.

(** C2. On a file whose [tasks] table has no deadline column the lookup in
    [pragma_table_info] finds no row and does not throw, the [catch] block
    with the [ALTER TABLE] is not entered, and the table is left without
    the column; the next insertion then fails. *)
Theorem setup_leaves_legacy_table :
  setupNativeDatabase legacy_file = (Ok tt, legacy_file) /\
  Sqlite.columns legacy_file = Some ["id"; "title"; "description"; "status"] /\
  native_runAsync insert_sql buy_milk_params legacy_file
  = (Throw (EngineError "table tasks has no column named deadline"), legacy_file).
Proof. repeat split. Qed.

(** ** The filter *)

Lemma trimStart_blank (q : string) :
  every is_space q = true -> trimStart q = "".
Proof.
  induction q as [|c q IH]; simpl; [reflexivity|].
  intros H. apply andb_true_iff in H. destruct H as [Hc Hq].
  rewrite Hc. now apply IH.
Qed.

Lemma trim_blank (q : string) : every is_space q = true -> trim q = "".
Proof. intros H. unfold trim. now rewrite (trimStart_blank q H). Qed.

Section Filter.

Context {runtime : Runtime}.

(** C9. With a search query that is empty or made of white space only, the
    filter memo yields the tasks it was given, in their order, and sets no
    error. *)
Theorem filter_blank_query :
  forall (tasks : list Task) (searchQuery : string),
    every is_space searchQuery = true ->
    filteredTasks tasks searchQuery = (tasks, None).
Proof.
  intros tasks q H. unfold filteredTasks. now rewrite (trim_blank q H).
Qed.

(** The comparison with the rendered deadline ends in the [catch] block,
    whatever the deadline and the runtime: a query that is not a number
    matches on the status, the title and the description only. *)
Lemma matches_text_query :
  forall (q : string) (t : Task) (s ti de : string),
    status t = JStr s -> title t = JStr ti -> description t = JStr de ->
    all_digits q = false ->
    matches q t
    = Ok (includes q (strip_diacritics (toLowerCase s))
          || includes q (toLowerCase ti) || includes q (toLowerCase de)).
Proof.
  intros q t s ti de Hs Hti Hde Hq. unfold matches.
  rewrite Hs, Hti, Hde, Hq. cbn [as_string ebind].
  destruct (includes q (strip_diacritics (toLowerCase s))); [reflexivity|].
  destruct (includes q (toLowerCase ti)); [reflexivity|].
  destruct (includes q (toLowerCase de)); [reflexivity|].
  destruct (truthy (deadline t)); [|reflexivity].
  unfold call_formatDate, query.
  destruct formatDate_initialised; reflexivity.
Qed.

Lemma filter_exn_total (callback : Task -> exn bool) (keep : Task -> bool)
    (tasks : list Task) :
  Forall (fun t => callback t = Ok (keep t)) tasks ->
  filter_exn callback tasks = Ok (filter keep tasks).
Proof.
  induction 1 as [|t l Ht Hl IH]; simpl; [reflexivity|].
  rewrite Ht, IH. reflexivity.
Qed.

(** C8, amended. On well-typed tasks, a query that reads "termine" once it
    is trimmed, lower-cased and stripped of its accents yields, in their
    order, the tasks that are done together with the tasks whose lower-case
    title or description contains "termine". *)
Theorem filter_termine :
  forall (tasks : list Task) (searchQuery : string),
    Forall well_typed tasks ->
    strip_diacritics (toLowerCase (trim searchQuery)) = "termine" ->
    filteredTasks tasks searchQuery
    = (filter (fun t => is_done t
                        || text_contains "termine" (title t)
                        || text_contains "termine" (description t)) tasks,
       None).
Proof.
  intros tasks q Htyped Hq. unfold filteredTasks.
  destruct (trim q =? "")%string eqn:Hempty.
  - apply String.eqb_eq in Hempty. rewrite Hempty in Hq. discriminate.
  - rewrite Hq.
    rewrite (filter_exn_total _
      (fun t => is_done t || text_contains "termine" (title t)
                || text_contains "termine" (description t))); [reflexivity|].
    eapply Forall_impl; [|exact Htyped].
    intros t [Hst [[ti Hti] [de Hde]]].
    destruct Hst as [Hst|Hst];
      rewrite (matches_text_query "termine" t _ ti de Hst Hti Hde eq_refl);
      unfold is_done, text_contains; rewrite Hst, Hti, Hde; reflexivity.
Qed.

End Filter.

Lemma filter_blank_query_witness :
  @filteredTasks Utc.runtime three_tasks "   " = (three_tasks, None).
Proof. apply (@filter_blank_query Utc.runtime three_tasks "   "). reflexivity. Defined.

Lemma three_tasks_well_typed : Forall well_typed three_tasks.
Proof. repeat (apply Forall_cons; [typecheck_task|]). apply Forall_nil. Qed.

Lemma filter_termine_witness :
  @filteredTasks Utc.runtime (rapport :: three_tasks) (" TERMIN" ++ String "201"%char "")
  = ([rapport;
      mkTask (JNum 3) (JStr "Pay rent") (JStr "") (JStr Termine) (JStr "")],
     None).
Proof.
  apply (@filter_termine Utc.runtime (rapport :: three_tasks)
           (" TERMIN" ++ String "201"%char "")).
  - apply Forall_cons; [typecheck_task|exact three_tasks_well_typed].
  - reflexivity.
Defined.

(** C8 as stated fails: a task in progress whose title contains "termine"
    is kept by the query, though it is not done. *)
Lemma filter_termine_counterexample :
  fst (@filteredTasks Utc.runtime [rapport] termine_query)
  <> filter is_done [rapport].
Proof. vm_compute. discriminate. Qed.

(** C4. The deadline 2024-01-05 renders as "05/01/2024 00:00" and as
    "2024-01-05"; the queries "05/01" and "2024-01" occur in these, match
    neither the status nor the title nor the description, and the filter
    keeps nothing. *)
Theorem filter_by_date_text :
  @formatDate Utc.runtime (deadline milk_by_january) = "05/01/2024 00:00" /\
  option_map (fun date => before_T (@toISOString Utc.runtime date))
    (@new_Date Utc.runtime (deadline milk_by_january)) = Some "2024-01-05" /\
  @filteredTasks Utc.runtime [milk_by_january] "05/01" = ([], None) /\
  @filteredTasks Utc.runtime [milk_by_january] "2024-01" = ([], None).
Proof. repeat split. Qed.

(** ** The sort *)

Import SortSpec.

Lemma place_perm (after : Task -> Task -> bool) (x : Task) (l : list Task) :
  Permutation (x :: l) (place after x l).
Proof.
  induction l as [|y l IH]; simpl; [apply Permutation_refl|].
  destruct (after x y); [|apply Permutation_refl].
  eapply Permutation_trans; [apply perm_swap|]. now apply perm_skip.
Qed.

Lemma insertion_sort_perm (after : Task -> Task -> bool) (l : list Task) :
  Permutation l (insertion_sort after l).
Proof.
  induction l as [|x l IH]; simpl; [apply perm_nil|].
  eapply Permutation_trans; [apply perm_skip, IH|apply place_perm].
Qed.

Lemma place_ext (after after' : Task -> Task -> bool) (x : Task) (l : list Task) :
  (forall y, In y l -> after x y = after' x y) ->
  place after x l = place after' x l.
Proof.
  induction l as [|y l IH]; intros H; simpl; [reflexivity|].
  rewrite (H y (or_introl eq_refl)).
  rewrite IH; [reflexivity|]. intros z Hz. apply H. now right.
Qed.

Lemma insertion_sort_ext (after after' : Task -> Task -> bool) (l : list Task) :
  (forall x y, In x l -> In y l -> after x y = after' x y) ->
  insertion_sort after l = insertion_sort after' l.
Proof.
  induction l as [|x l IH]; intros H; simpl; [reflexivity|].
  rewrite IH by (intros a b Ha Hb; apply H; now right).
  apply place_ext. intros y Hy. apply H; [now left|right].
  eapply Permutation_in; [apply Permutation_sym, insertion_sort_perm|exact Hy].
Qed.

(** With a comparator that does not throw, [sort] is the insertion sort. *)
Lemma insert_sorted_pure (compare : Task -> Task -> exn jsnum)
    (v : Task -> Task -> jsnum) (x : Task) (l : list Task) :
  (forall a b, compare a b = Ok (v a b)) ->
  insert_sorted compare x l = Ok (place (fun a b => positive (v a b)) x l).
Proof.
  intros H. induction l as [|y l IH]; simpl; [reflexivity|].
  rewrite H. cbn [ebind]. destruct (positive (v x y)); [|reflexivity].
  now rewrite IH.
Qed.

Lemma sort_pure (compare : Task -> Task -> exn jsnum)
    (v : Task -> Task -> jsnum) (l : list Task) :
  (forall a b, compare a b = Ok (v a b)) ->
  sort compare l = Ok (insertion_sort (fun a b => positive (v a b)) l).
Proof.
  intros H. induction l as [|x l IH]; simpl; [reflexivity|].
  rewrite IH. cbn [ebind]. now apply insert_sorted_pure.
Qed.

(** The insertion sort for a strict total order [lt] of the ranks: the
    result is ordered, and the tasks of one rank keep their order. *)
Section Ordered.

Context {runtime : Runtime}.

Variable lt : option Z -> option Z -> bool.
Hypothesis lt_irrefl : forall a, lt a a = false.
Hypothesis lt_trans : forall a b c, lt a b = true -> lt b c = true -> lt a c = true.
Hypothesis lt_total : forall a b, lt a b = false -> lt b a = false -> a = b.

Let after (x y : Task) : bool := lt (rank y) (rank x).
Let ordered (x y : Task) : Prop := lt (rank y) (rank x) = false.

Lemma lt_asym (a b : option Z) : lt a b = true -> lt b a = false.
Proof.
  intros H. destruct (lt b a) eqn:E; [|reflexivity].
  rewrite <- (lt_irrefl a). symmetry. now apply (lt_trans a b a).
Qed.

Lemma lt_le_trans (a b c : option Z) :
  lt b a = false -> lt c b = false -> lt c a = false.
Proof.
  intros Hab Hbc. destruct (lt c a) eqn:E; [|reflexivity].
  destruct (lt a b) eqn:Hlt.
  - rewrite <- Hbc. symmetry. now apply (lt_trans c a b).
  - rewrite (lt_total a b Hlt Hab) in E. congruence.
Qed.

Lemma place_sorted (x : Task) (l : list Task) :
  StronglySorted ordered l -> StronglySorted ordered (place after x l).
Proof.
  induction 1 as [|y l Hl IH Hy]; simpl.
  - constructor; constructor.
  - unfold after at 1. destruct (lt (rank y) (rank x)) eqn:E.
    + constructor; [exact IH|].
      eapply Permutation_Forall; [apply place_perm|].
      constructor; [|exact Hy]. unfold ordered. now apply lt_asym.
    + constructor; [now constructor|].
      constructor; [exact E|].
      eapply Forall_impl; [|exact Hy]. intros z Hz. unfold ordered in *.
      now apply (lt_le_trans (rank x) (rank y) (rank z)).
Qed.

Lemma insertion_sort_sorted (l : list Task) :
  StronglySorted ordered (insertion_sort after l).
Proof.
  induction l as [|x l IH]; simpl; [constructor|now apply place_sorted].
Qed.

Lemma same_rank_eq (k : option Z) (t : Task) :
  same_rank k t = true -> rank t = k.
Proof.
  unfold same_rank. destruct k as [x|], (rank t) as [y|]; try discriminate.
  - intros H. apply Z.eqb_eq in H. now subst.
  - reflexivity.
Qed.

Lemma place_stable (k : option Z) (x : Task) (l : list Task) :
  filter (same_rank k) (place after x l)
  = if same_rank k x then x :: filter (same_rank k) l else filter (same_rank k) l.
Proof.
  induction l as [|y l IH]; simpl.
  - now destruct (same_rank k x).
  - unfold after at 1. destruct (lt (rank y) (rank x)) eqn:E; simpl.
    + rewrite IH. destruct (same_rank k x) eqn:Hx; [|reflexivity].
      destruct (same_rank k y) eqn:Hy; [|reflexivity].
      apply same_rank_eq in Hx, Hy. rewrite Hx, Hy, lt_irrefl in E. discriminate.
    + now destruct (same_rank k x).
Qed.

Lemma insertion_sort_stable (k : option Z) (l : list Task) :
  filter (same_rank k) (insertion_sort after l) = filter (same_rank k) l.
Proof.
  induction l as [|x l IH]; simpl; [reflexivity|].
  rewrite place_stable, IH. reflexivity.
Qed.

End Ordered.

Lemma earlier_irrefl (a : option Z) : earlier a a = false.
Proof. destruct a; simpl; [apply Z.ltb_irrefl|reflexivity]. Qed.

Lemma earlier_trans (a b c : option Z) :
  earlier a b = true -> earlier b c = true -> earlier a c = true.
Proof.
  destruct a, b, c; simpl; try discriminate; try reflexivity.
  rewrite !Z.ltb_lt. lia.
Qed.

Lemma earlier_total (a b : option Z) :
  earlier a b = false -> earlier b a = false -> a = b.
Proof.
  destruct a, b; simpl; try discriminate; try reflexivity.
  rewrite !Z.ltb_ge. intros. f_equal. lia.
Qed.

Section SortByDeadline.

Context {runtime : Runtime}.

Lemma sort_key_of_rank (t : Task) :
  absent t = true \/ parseable t = true ->
  sort_key t = number_of_rank (rank t).
Proof.
  unfold absent, parseable, sort_key, rank.
  destruct (truthy (deadline t)); simpl; [|reflexivity].
  intros [H|H]; [discriminate|].
  now destruct (new_Date (deadline t)).
Qed.

Lemma parseable_of_rank (t : Task) :
  absent t = true \/ parseable t = true ->
  parseable t = match rank t with Some _ => true | None => false end.
Proof.
  unfold absent, parseable, rank.
  destruct (truthy (deadline t)); simpl; [|reflexivity].
  now destruct (new_Date (deadline t)).
Qed.

Lemma positive_minus (a b : option Z) :
  positive (minus (number_of_rank a) (number_of_rank b)) = earlier b a.
Proof.
  destruct a as [x|], b as [y|]; simpl; try reflexivity.
  destruct (Z.ltb_spec 0 (x - y)), (Z.ltb_spec y x); try reflexivity; lia.
Qed.

Lemma compareTasks_by_deadline (sortOrder : SortOrder) (a b : Task) :
  compareTasks by_deadline sortOrder a b
  = Ok (match sortOrder with
        | asc => minus (sort_key a) (sort_key b)
        | desc => minus (sort_key b) (sort_key a)
        end).
Proof. reflexivity. Qed.

(** On tasks without an invalid date the memo is the insertion sort by
    rank, ascending or descending. *)
Lemma sortedTasks_by_rank (l : list Task) (sortOrder : SortOrder) :
  no_invalid_date l ->
  sortedTasks l by_deadline sortOrder
  = Ok (insertion_sort
          (match sortOrder with
           | asc => fun x y => earlier (rank y) (rank x)
           | desc => fun x y => earlier (rank x) (rank y)
           end) l).
Proof.
  intros Hl. unfold sortedTasks.
  rewrite (sort_pure _ _ l (compareTasks_by_deadline sortOrder)).
  f_equal. apply insertion_sort_ext. intros x y Hx Hy.
  unfold no_invalid_date in Hl. rewrite Forall_forall in Hl.
  rewrite (sort_key_of_rank x (Hl x Hx)), (sort_key_of_rank y (Hl y Hy)).
  destruct sortOrder; apply positive_minus.
Qed.

Lemma sorted_undated_last (l : list Task) :
  StronglySorted (fun x y => earlier (rank y) (rank x) = false) l ->
  no_invalid_date l -> undated_last l = true.
Proof.
  induction 1 as [|t l Hl IH Ht]; intros Hclean; [reflexivity|].
  inversion Hclean as [|? ? Hct Hcl]; subst. simpl.
  rewrite (IH Hcl), andb_true_r.
  unfold undated at 1. rewrite (parseable_of_rank t Hct).
  destruct (rank t) as [d|] eqn:Hr; [reflexivity|]. simpl.
  apply forallb_forall. intros y Hy.
  unfold no_invalid_date in Hcl. rewrite Forall_forall in Ht, Hcl.
  unfold undated. rewrite (parseable_of_rank y (Hcl y Hy)).
  specialize (Ht y Hy). now destruct (rank y).
Qed.

Lemma sorted_undated_first (l : list Task) :
  StronglySorted (fun x y => earlier (rank x) (rank y) = false) l ->
  no_invalid_date l -> undated_first l = true.
Proof.
  induction 1 as [|t l Hl IH Ht]; intros Hclean; [reflexivity|].
  inversion Hclean as [|? ? Hct Hcl]; subst. simpl.
  rewrite (IH Hcl), andb_true_r.
  rewrite (parseable_of_rank t Hct).
  destruct (rank t) as [d|] eqn:Hr; [|reflexivity].
  apply forallb_forall. intros y Hy.
  unfold no_invalid_date in Hcl. rewrite Forall_forall in Ht, Hcl.
  rewrite (parseable_of_rank y (Hcl y Hy)).
  specialize (Ht y Hy). now destruct (rank y).
Qed.

(** C3, amended. On a list in which every deadline is absent or parseable,
    the sort by deadline yields a permutation of the list in which the
    tasks without a deadline come after all the others in ascending order
    and before all the others in descending order; in both orders the
    tasks of one rank, and so the tasks without a deadline among
    themselves, keep the order they had in the list. *)
Theorem sort_by_deadline :
  forall (l : list Task),
    no_invalid_date l ->
    exists up down,
      sortedTasks l by_deadline asc = Ok up /\
      sortedTasks l by_deadline desc = Ok down /\
      Permutation l up /\ Permutation l down /\
      undated_last up = true /\ undated_first down = true /\
      (forall k, filter (same_rank k) up = filter (same_rank k) l) /\
      (forall k, filter (same_rank k) down = filter (same_rank k) l).
Proof.
  intros l Hl.
  rewrite (sortedTasks_by_rank l asc Hl), (sortedTasks_by_rank l desc Hl).
  do 2 eexists. split; [reflexivity|]. split; [reflexivity|].
  assert (Hup := insertion_sort_perm (fun x y => earlier (rank y) (rank x)) l).
  assert (Hdown := insertion_sort_perm (fun x y => earlier (rank x) (rank y)) l).
  repeat split; try assumption.
  - apply sorted_undated_last.
    + apply (insertion_sort_sorted earlier earlier_irrefl earlier_trans earlier_total).
    + eapply Permutation_Forall; [exact Hup|exact Hl].
  - apply sorted_undated_first.
    + apply (insertion_sort_sorted (fun a b => earlier b a)).
      * intros a. apply earlier_irrefl.
      * intros a b c Hab Hbc. now apply (earlier_trans c b a).
      * intros a b Hab Hba. now apply earlier_total.
    + eapply Permutation_Forall; [exact Hdown|exact Hl].
  - intros k. apply (insertion_sort_stable earlier earlier_irrefl).
  - intros k. apply (insertion_sort_stable (fun a b => earlier b a)).
    intros a. apply earlier_irrefl.
Qed.

End SortByDeadline.

Lemma sort_by_deadline_witness :
  exists up down,
    @sortedTasks Utc.runtime [buy_milk; call_ana; pay_rent; file_taxes] by_deadline asc = Ok up /\
    @sortedTasks Utc.runtime [buy_milk; call_ana; pay_rent; file_taxes] by_deadline desc = Ok down /\
    Permutation [buy_milk; call_ana; pay_rent; file_taxes] up /\
    Permutation [buy_milk; call_ana; pay_rent; file_taxes] down /\
    @undated_last Utc.runtime up = true /\ @undated_first Utc.runtime down = true /\
    (forall k, filter (@same_rank Utc.runtime k) up
               = filter (@same_rank Utc.runtime k) [buy_milk; call_ana; pay_rent; file_taxes]) /\
    (forall k, filter (@same_rank Utc.runtime k) down
               = filter (@same_rank Utc.runtime k) [buy_milk; call_ana; pay_rent; file_taxes]).
Proof.
  apply (@sort_by_deadline Utc.runtime [buy_milk; call_ana; pay_rent; file_taxes]).
  repeat (apply Forall_cons;
          [first [left; reflexivity | right; reflexivity]|]).
  apply Forall_nil.
Defined.

Example sort_by_deadline_example :
  @sortedTasks Utc.runtime [buy_milk; call_ana; pay_rent; file_taxes] by_deadline asc
  = Ok [file_taxes; call_ana; buy_milk; pay_rent] /\
  @sortedTasks Utc.runtime [buy_milk; call_ana; pay_rent; file_taxes] by_deadline desc
  = Ok [buy_milk; pay_rent; call_ana; file_taxes].
Proof. split; reflexivity. Qed.

(** C3 as stated fails in descending order: the task without a deadline
    comes first. *)
Lemma sort_by_deadline_counterexample :
  ~ (exists down,
       @sortedTasks Utc.runtime [call_ana; buy_milk] by_deadline desc = Ok down /\
       @undated_last Utc.runtime down = true).
Proof.
  intros [down [Hsort Hlast]].
  vm_compute in Hsort. injection Hsort as <-.
  vm_compute in Hlast. discriminate.
Qed.

(** A deadline that does not parse gives NaN, which the sort reads as a
    tie with every task: in ascending order the task stays in front of a
    task with a date. *)
Example sort_invalid_date_example :
  @sortedTasks Utc.runtime [someday; call_ana] by_deadline asc
  = Ok [someday; call_ana] /\
  @undated_last Utc.runtime [someday; call_ana] = false.
Proof. split; reflexivity. Qed.

(** ** The two backends under the same actions *)

Import Converge.

Lemma strict_eq_refl (v : jsval) : strict_eq v v = true.
Proof.
  destruct v; simpl; try reflexivity.
  - now destruct b.
  - apply Z.eqb_refl.
  - apply String.eqb_refl.
Qed.

Lemma strict_eq_sym (a b : jsval) : strict_eq a b = strict_eq b a.
Proof.
  destruct a, b; simpl; try reflexivity.
  - now destruct b, b0.
  - apply Z.eqb_sym.
  - apply String.eqb_sym.
Qed.

Lemma filter_all {A : Type} (p : A -> bool) (l : list A) :
  Forall (fun x => p x = true) l -> filter p l = l.
Proof. induction 1 as [|x l Hx _ IH]; simpl; [reflexivity|]. now rewrite Hx, IH. Qed.

Lemma map_unchanged {A : Type} (g : A -> A) (l : list A) :
  Forall (fun x => g x = x) l -> map g l = l.
Proof. induction 1 as [|x l Hx _ IH]; simpl; [reflexivity|]. now rewrite Hx, IH. Qed.

Lemma splice1_beyond {A : Type} (k : nat) (l : list A) :
  nth_error l k = None -> splice1 k l = l.
Proof.
  revert k. induction l as [|x l IH]; intros [|k]; simpl; try reflexivity.
  - discriminate.
  - intros H. now rewrite IH.
Qed.

Lemma assign_at_beyond {A : Type} (f : A -> A) (k : nat) (l : list A) :
  nth_error l k = None -> assign_at k f l = l.
Proof.
  revert k. induction l as [|x l IH]; intros [|k]; simpl; try reflexivity.
  - discriminate.
  - intros H. now rewrite IH.
Qed.

Lemma map_splice1 {A B : Type} (g : A -> B) (k : nat) (l : list A) :
  map g (splice1 k l) = splice1 k (map g l).
Proof.
  revert k. induction l as [|x l IH]; intros [|k]; simpl; try reflexivity.
  now rewrite IH.
Qed.

Lemma map_assign_at {A B : Type} (g : A -> B) (f : A -> A) (f' : B -> B)
    (k : nat) (l : list A) :
  (forall x, g (f x) = f' (g x)) ->
  map g (assign_at k f l) = assign_at k f' (map g l).
Proof.
  intros H. revert k. induction l as [|x l IH]; intros [|k]; simpl; try reflexivity.
  - now rewrite H.
  - now rewrite IH.
Qed.

Lemma Forall_splice1 {A : Type} (P : A -> Prop) (k : nat) (l : list A) :
  Forall P l -> Forall P (splice1 k l).
Proof.
  intros H. revert k. induction H as [|x l Hx Hl IH]; intros [|k]; simpl;
    try constructor; auto.
Qed.

Lemma Forall_assign_at {A : Type} (P : A -> Prop) (f : A -> A) (k : nat) (l : list A) :
  (forall x, P x -> P (f x)) -> Forall P l -> Forall P (assign_at k f l).
Proof.
  intros Hf H. revert k. induction H as [|x l Hx Hl IH]; intros [|k]; simpl;
    try constructor; auto.
Qed.

(** Lists without a repeated id. *)

Lemma distinct_findIndex (l : list Task) (k : nat) (t : Task) :
  distinct_ids l -> nth_error l k = Some t ->
  findIndex (fun u => strict_eq (id u) (id t)) l = Some k.
Proof.
  revert k. induction l as [|a l IH]; intros [|k] Hd Hk; simpl in *; try discriminate.
  - injection Hk as ->. now rewrite strict_eq_refl.
  - destruct Hd as [Ha Hd].
    rewrite Forall_forall in Ha.
    rewrite (Ha t (nth_error_In _ _ Hk)).
    now rewrite (IH k Hd Hk).
Qed.

Lemma distinct_filter (l : list Task) (k : nat) (t : Task) :
  distinct_ids l -> nth_error l k = Some t ->
  filter (fun u => negb (strict_eq (id u) (id t))) l = splice1 k l.
Proof.
  revert k. induction l as [|a l IH]; intros [|k] Hd Hk; simpl in *; try discriminate.
  - injection Hk as ->. rewrite strict_eq_refl. simpl.
    apply filter_all. destruct Hd as [Ha _].
    eapply Forall_impl; [|exact Ha]. intros u Hu. simpl in Hu.
    now rewrite strict_eq_sym, Hu.
  - destruct Hd as [Ha Hd].
    rewrite Forall_forall in Ha.
    rewrite (Ha t (nth_error_In _ _ Hk)). simpl.
    now rewrite (IH k Hd Hk).
Qed.

Lemma distinct_map (f : Task -> Task) (l : list Task) (k : nat) (t : Task) :
  distinct_ids l -> nth_error l k = Some t ->
  map (fun u => if strict_eq (id u) (id t) then f u else u) l = assign_at k f l.
Proof.
  revert k. induction l as [|a l IH]; intros [|k] Hd Hk; simpl in *; try discriminate.
  - injection Hk as ->. rewrite strict_eq_refl. f_equal.
    apply map_unchanged. destruct Hd as [Ha _].
    eapply Forall_impl; [|exact Ha]. intros u Hu. simpl in Hu.
    now rewrite strict_eq_sym, Hu.
  - destruct Hd as [Ha Hd].
    rewrite Forall_forall in Ha.
    rewrite (Ha t (nth_error_In _ _ Hk)).
    now rewrite (IH k Hd Hk).
Qed.

Lemma distinct_splice1 (k : nat) (l : list Task) :
  distinct_ids l -> distinct_ids (splice1 k l).
Proof.
  revert k. induction l as [|a l IH]; intros [|k] Hd; simpl in *; auto.
  - tauto.
  - destruct Hd as [Ha Hd]. split; [now apply Forall_splice1|now apply IH].
Qed.

Lemma distinct_assign_at (f : Task -> Task) (k : nat) (l : list Task) :
  (forall u, id (f u) = id u) ->
  distinct_ids l -> distinct_ids (assign_at k f l).
Proof.
  intros Hf. revert k. induction l as [|a l IH]; intros [|k] Hd; simpl in *; auto.
  - rewrite Hf. exact Hd.
  - destruct Hd as [Ha Hd]. split; [|now apply IH].
    apply Forall_assign_at; [|exact Ha]. intros u Hu. now rewrite Hf.
Qed.

Lemma distinct_snoc (l : list Task) (x : Task) :
  distinct_ids l ->
  Forall (fun u => strict_eq (id u) (id x) = false) l ->
  distinct_ids (l ++ [x]).
Proof.
  induction l as [|a l IH]; intros Hd Hx; simpl in *.
  - split; [constructor|exact I].
  - destruct Hd as [Ha Hd]. inversion Hx as [|? ? Hax Hlx]; subst.
    split; [|now apply IH].
    apply Forall_app. split; [exact Ha|]. constructor; [exact Hax|constructor].
Qed.

(** The four mutations on the relational backend. *)

Lemma native_addTask (task : NewTask) os st clk inst rows seq last :
  addTask task
    (mkApp (mkWorld os st clk inst
              (Sqlite.mkFile (Some Sqlite.all_columns) rows seq last))
           (Some nativeDatabase) rows)
  = let n := Z.max seq (Sqlite.max_rowid rows) + 1 in
    let row := mkTask (JNum n) (JStr (new_title task)) (JStr (new_description task))
                 (js_or (JStr (new_status task)) (JStr En_cours))
                 (js_or (optional (new_deadline task)) JNull) in
    mkApp (mkWorld os st clk inst
             (Sqlite.mkFile (Some Sqlite.all_columns) (rows ++ [row]) n n))
          (Some nativeDatabase) (rows ++ [row]).
Proof.
  destruct task as [ti de s dl].
  unfold addTask, run_and_reload, js_or, optional, truthy.
  cbn [new_title new_description new_status new_deadline].
  destruct (s =? "")%string; destruct dl as [d|];
    try destruct (d =? "")%string; reflexivity.
Qed.

Lemma native_deleteTask (n : Z) os st clk inst rows seq last :
  deleteTask (JNum n)
    (mkApp (mkWorld os st clk inst
              (Sqlite.mkFile (Some Sqlite.all_columns) rows seq last))
           (Some nativeDatabase) rows)
  = let rows' := filter (fun t => negb (strict_eq (id t) (JNum n))) rows in
    mkApp (mkWorld os st clk inst
             (Sqlite.mkFile (Some Sqlite.all_columns) rows' seq last))
          (Some nativeDatabase) rows'.
Proof. reflexivity. Qed.

Lemma native_updateTaskStatus (n : Z) (s : string) os st clk inst rows seq last :
  updateTaskStatus (JNum n) s
    (mkApp (mkWorld os st clk inst
              (Sqlite.mkFile (Some Sqlite.all_columns) rows seq last))
           (Some nativeDatabase) rows)
  = let rows' := map (fun t => if strict_eq (id t) (JNum n)
                               then set_status (JStr s) t else t) rows in
    mkApp (mkWorld os st clk inst
             (Sqlite.mkFile (Some Sqlite.all_columns) rows' seq last))
          (Some nativeDatabase) rows'.
Proof. reflexivity. Qed.

Lemma native_updateTaskDeadline (n : Z) (d : string) os st clk inst rows seq last :
  updateTaskDeadline (JNum n) d
    (mkApp (mkWorld os st clk inst
              (Sqlite.mkFile (Some Sqlite.all_columns) rows seq last))
           (Some nativeDatabase) rows)
  = let rows' := map (fun t => if strict_eq (id t) (JNum n)
                               then set_deadline (JStr d) t else t) rows in
    mkApp (mkWorld os st clk inst
             (Sqlite.mkFile (Some Sqlite.all_columns) rows' seq last))
          (Some nativeDatabase) rows'.
Proof. reflexivity. Qed.

Lemma nth_error_map_none {A B : Type} (g : A -> B) (l : list A) (k : nat) :
  nth_error l k = None -> nth_error (map g l) k = None.
Proof. intros H. now rewrite nth_error_map, H. Qed.

Lemma native_entry_of_new (task : NewTask) (n : Z) :
  native_entry
    (mkTask (JNum n) (JStr (new_title task)) (JStr (new_description task))
       (js_or (JStr (new_status task)) (JStr En_cours))
       (js_or (optional (new_deadline task)) JNull))
  = entry_of_new task.
Proof.
  destruct task as [ti de s dl]. unfold native_entry, entry_of_new, js_or, optional.
  cbn [new_title new_description new_status new_deadline title description status deadline].
  destruct dl as [d|]; [|reflexivity].
  unfold truthy. now destruct (d =? "")%string eqn:E.
Qed.

(** An action on the relational backend is the action of the
    specification on the entries that the rows show. *)
Lemma native_step (a : @AppState Sqlite.File) (x : Action) :
  native_inv a ->
  native_inv (act a x) /\
  map native_entry (tasks (act a x)) = spec_act (map native_entry (tasks a)) x.
Proof.
  intros (os & st & clk & inst & rows & seq & last & -> & Hd & Hb).
  assert (Hid : forall k t, nth_error rows k = Some t -> exists n, id t = JNum n).
  { intros k t Hk. rewrite Forall_forall in Hb.
    destruct (Hb t (nth_error_In _ _ Hk)) as [n [Hn _]]. now exists n. }
  destruct x as [task|row|row s|row d]; cbn [act tasks spec_act].
  - rewrite native_addTask. cbn zeta. cbn [tasks]. split.
    + do 7 eexists. split; [reflexivity|]. split.
      * apply distinct_snoc; [exact Hd|].
        eapply Forall_impl; [|exact Hb]. intros u [m [Hm Hle]].
        rewrite Hm. cbn. apply Z.eqb_neq. lia.
      * apply Forall_app. split.
        -- eapply Forall_impl; [|exact Hb]. intros u [m [Hm Hle]].
           exists m. split; [exact Hm|lia].
        -- constructor; [|constructor]. eexists. split; [reflexivity|lia].
    + rewrite map_app. cbn [map]. now rewrite native_entry_of_new.
  - destruct (nth_error rows row) as [t|] eqn:Hk.
    + destruct (Hid _ _ Hk) as [n Hn]. rewrite Hn, native_deleteTask.
      cbn zeta. cbn [tasks]. rewrite <- Hn, (distinct_filter rows row t Hd Hk).
      split; [|apply map_splice1].
      do 7 eexists. split; [reflexivity|].
      split; [now apply distinct_splice1|now apply Forall_splice1].
    + cbn [tasks]. split.
      * do 7 eexists. split; [reflexivity|]. now split.
      * symmetry. apply splice1_beyond. now apply nth_error_map_none.
  - destruct (nth_error rows row) as [t|] eqn:Hk.
    + destruct (Hid _ _ Hk) as [n Hn]. rewrite Hn, native_updateTaskStatus.
      cbn zeta. cbn [tasks].
      rewrite <- Hn, (distinct_map (set_status (JStr s)) rows row t Hd Hk).
      split; [|now apply map_assign_at].
      do 7 eexists. split; [reflexivity|].
      split; [now apply distinct_assign_at|].
      apply Forall_assign_at; [|exact Hb]. now intros u Hu.
    + cbn [tasks]. split.
      * do 7 eexists. split; [reflexivity|]. now split.
      * symmetry. apply assign_at_beyond. now apply nth_error_map_none.
  - destruct (nth_error rows row) as [t|] eqn:Hk.
    + destruct (Hid _ _ Hk) as [n Hn]. rewrite Hn, native_updateTaskDeadline.
      cbn zeta. cbn [tasks].
      rewrite <- Hn, (distinct_map (set_deadline (JStr d)) rows row t Hd Hk).
      split; [|now apply map_assign_at].
      do 7 eexists. split; [reflexivity|].
      split; [now apply distinct_assign_at|].
      apply Forall_assign_at; [|exact Hb]. now intros u Hu.
    + cbn [tasks]. split.
      * do 7 eexists. split; [reflexivity|]. now split.
      * symmetry. apply assign_at_beyond. now apply nth_error_map_none.
Qed.

(** The four mutations on the key-value backend. *)

Lemma web_addTask (task : NewTask) (now : nat -> Z) (inst : nat)
    (f : Sqlite.File) (stored : list Task) :
  addTask task
    (mkApp (mkWorld "web" (Some stored) now inst f) (Some webDatabase) stored)
  = let t := mkTask (JNum (now inst)) (JStr (new_title task))
               (JStr (new_description task))
               (js_or (JStr (new_status task)) (JStr En_cours))
               (js_or (optional (new_deadline task)) (JStr "")) in
    mkApp (mkWorld "web" (Some (stored ++ [t])) now (S inst) f)
          (Some webDatabase) (stored ++ [t]).
Proof.
  destruct task as [ti de s dl].
  unfold addTask, run_and_reload, js_or, optional, truthy.
  cbn [new_title new_description new_status new_deadline].
  destruct s as [|c s]; destruct dl as [[|c' d]|]; reflexivity.
Qed.

Lemma web_runAsync_delete (v : jsval) (t : Z) (st : Storage) :
  web_runAsync delete_sql [v] t st
  = (Some match findIndex (fun u => strict_eq (id u) v) (getAllTasks st) with
          | Some index => splice1 index (getAllTasks st)
          | None => getAllTasks st
          end,
     mkRunResult (JNum 1) (JNum 1)).
Proof.
  unfold web_runAsync.
  change (includes "INSERT" delete_sql) with false.
  change (includes "UPDATE" delete_sql) with false.
  change (includes "DELETE" delete_sql) with true.
  cbv iota. change (at_index [v] 0) with v.
  now destruct (findIndex (fun u => strict_eq (id u) v) (getAllTasks st)).
Qed.

Lemma web_runAsync_status (v w : jsval) (t : Z) (st : Storage) :
  web_runAsync update_status_sql [w; v] t st
  = (Some match findIndex (fun u => strict_eq (id u) v) (getAllTasks st) with
          | Some i => assign_at i (set_status w) (getAllTasks st)
          | None => getAllTasks st
          end,
     mkRunResult (JNum 1) (JNum 1)).
Proof.
  unfold web_runAsync.
  change (includes "INSERT" update_status_sql) with false.
  change (includes "UPDATE" update_status_sql) with true.
  change (includes "SET status" update_status_sql) with true.
  cbv iota. change (at_index [w; v] 0) with w. change (at_index [w; v] 1) with v.
  now destruct (findIndex (fun u => strict_eq (id u) v) (getAllTasks st)).
Qed.

Lemma web_runAsync_deadline (v w : jsval) (t : Z) (st : Storage) :
  web_runAsync update_deadline_sql [w; v] t st
  = (Some match findIndex (fun u => strict_eq (id u) v) (getAllTasks st) with
          | Some i => assign_at i (set_deadline w) (getAllTasks st)
          | None => getAllTasks st
          end,
     mkRunResult (JNum 1) (JNum 1)).
Proof.
  unfold web_runAsync.
  change (includes "INSERT" update_deadline_sql) with false.
  change (includes "UPDATE" update_deadline_sql) with true.
  change (includes "SET status" update_deadline_sql) with false.
  change (includes "SET deadline" update_deadline_sql) with true.
  cbv iota. change (at_index [w; v] 0) with w. change (at_index [w; v] 1) with v.
  now destruct (findIndex (fun u => strict_eq (id u) v) (getAllTasks st)).
Qed.

Lemma web_deleteTask (v : jsval) (now : nat -> Z) (inst : nat)
    (f : Sqlite.File) (stored : list Task) :
  deleteTask v
    (mkApp (mkWorld "web" (Some stored) now inst f) (Some webDatabase) stored)
  = let stored' :=
      match findIndex (fun t => strict_eq (id t) v) stored with
      | Some index => splice1 index stored
      | None => stored
      end in
    mkApp (mkWorld "web" (Some stored') now (S inst) f) (Some webDatabase) stored'.
Proof. run_on_web. rewrite web_runAsync_delete. reflexivity. Qed.

Lemma web_updateTaskStatus (v : jsval) (s : string) (now : nat -> Z) (inst : nat)
    (f : Sqlite.File) (stored : list Task) :
  updateTaskStatus v s
    (mkApp (mkWorld "web" (Some stored) now inst f) (Some webDatabase) stored)
  = let stored' :=
      match findIndex (fun t => strict_eq (id t) v) stored with
      | Some i => assign_at i (set_status (JStr s)) stored
      | None => stored
      end in
    mkApp (mkWorld "web" (Some stored') now (S inst) f) (Some webDatabase) stored'.
Proof. run_on_web. rewrite web_runAsync_status. reflexivity. Qed.

Lemma web_updateTaskDeadline (v : jsval) (d : string) (now : nat -> Z) (inst : nat)
    (f : Sqlite.File) (stored : list Task) :
  updateTaskDeadline v d
    (mkApp (mkWorld "web" (Some stored) now inst f) (Some webDatabase) stored)
  = let stored' :=
      match findIndex (fun t => strict_eq (id t) v) stored with
      | Some i => assign_at i (set_deadline (JStr d)) stored
      | None => stored
      end in
    mkApp (mkWorld "web" (Some stored') now (S inst) f) (Some webDatabase) stored'.
Proof. run_on_web. rewrite web_runAsync_deadline. reflexivity. Qed.

Lemma past_instant (now : nat -> Z) (inst : nat) (l : list Task) :
  Forall (fun u => exists i, (i < inst)%nat /\ id u = JNum (now i)) l ->
  Forall (fun u => exists i, (i < S inst)%nat /\ id u = JNum (now i)) l.
Proof.
  apply Forall_impl. intros u [i [Hi Hu]]. exists i. split; [lia|exact Hu].
Qed.

(** An action on the key-value backend is the action of the specification
    on the entries that the stored tasks show, as long as the clock has
    moved between two mutations. *)
Lemma web_step (now : nat -> Z) (a : @AppState Sqlite.File) (x : Action) :
  strictly_increasing now ->
  web_inv now a ->
  web_inv now (act a x) /\
  map web_entry (tasks (act a x)) = spec_act (map web_entry (tasks a)) x.
Proof.
  intros Hnow (inst & f & stored & -> & Hd & Hb).
  destruct x as [task|row|row s|row d]; cbn [act tasks spec_act].
  - rewrite web_addTask. cbn zeta. cbn [tasks]. split.
    + do 3 eexists. split; [reflexivity|]. split.
      * apply distinct_snoc; [exact Hd|].
        eapply Forall_impl; [|exact Hb]. intros u [i [Hi Hu]].
        rewrite Hu. cbn. apply Z.eqb_neq. specialize (Hnow i inst Hi). lia.
      * apply Forall_app. split; [now apply past_instant|].
        constructor; [|constructor]. exists inst. split; [lia|reflexivity].
    + rewrite map_app. reflexivity.
  - destruct (nth_error stored row) as [t|] eqn:Hk.
    + rewrite web_deleteTask. cbn zeta. cbn [tasks].
      rewrite (distinct_findIndex stored row t Hd Hk).
      split; [|apply map_splice1].
      do 3 eexists. split; [reflexivity|].
      split; [now apply distinct_splice1|].
      apply Forall_splice1. now apply past_instant.
    + cbn [tasks]. split.
      * do 3 eexists. split; [reflexivity|]. now split.
      * symmetry. apply splice1_beyond. now apply nth_error_map_none.
  - destruct (nth_error stored row) as [t|] eqn:Hk.
    + rewrite web_updateTaskStatus. cbn zeta. cbn [tasks].
      rewrite (distinct_findIndex stored row t Hd Hk).
      split; [|now apply map_assign_at].
      do 3 eexists. split; [reflexivity|].
      split; [now apply distinct_assign_at|].
      apply Forall_assign_at; [now intros u Hu|]. now apply past_instant.
    + cbn [tasks]. split.
      * do 3 eexists. split; [reflexivity|]. now split.
      * symmetry. apply assign_at_beyond. now apply nth_error_map_none.
  - destruct (nth_error stored row) as [t|] eqn:Hk.
    + rewrite web_updateTaskDeadline. cbn zeta. cbn [tasks].
      rewrite (distinct_findIndex stored row t Hd Hk).
      split; [|now apply map_assign_at].
      do 3 eexists. split; [reflexivity|].
      split; [now apply distinct_assign_at|].
      apply Forall_assign_at; [now intros u Hu|]. now apply past_instant.
    + cbn [tasks]. split.
      * do 3 eexists. split; [reflexivity|]. now split.
      * symmetry. apply assign_at_beyond. now apply nth_error_map_none.
Qed.

Lemma native_run (actions : list Action) :
  forall a : @AppState Sqlite.File,
    native_inv a ->
    map native_entry (tasks (run actions a))
    = fold_left spec_act actions (map native_entry (tasks a)).
Proof.
  induction actions as [|x actions IH]; intros a Ha; [reflexivity|].
  destruct (native_step a x Ha) as [Hinv Hstep].
  cbn [run fold_left]. rewrite <- Hstep. now apply IH.
Qed.

Lemma web_run (now : nat -> Z) (actions : list Action) :
  strictly_increasing now ->
  forall a : @AppState Sqlite.File,
    web_inv now a ->
    map web_entry (tasks (run actions a))
    = fold_left spec_act actions (map web_entry (tasks a)).
Proof.
  intros Hnow. induction actions as [|x actions IH]; intros a Ha; [reflexivity|].
  destruct (web_step now a x Hnow Ha) as [Hinv Hstep].
  cbn [run fold_left]. rewrite <- Hstep. now apply IH.
Qed.

Lemma mount_native :
  mount (native_world Sqlite.empty_file)
  = mkApp (mkWorld "ios" None (fun _ => 0) O fresh_file) (Some nativeDatabase) [].
Proof. reflexivity. Qed.

Lemma mount_web (now : nat -> Z) :
  mount (web_world now)
  = mkApp (mkWorld "web" (Some []) now O Sqlite.empty_file) (Some webDatabase) [].
Proof. reflexivity. Qed.

Lemma entries_same (l1 l2 : list Task) :
  map native_entry l1 = map web_entry l2 -> Forall2 same_task l1 l2.
Proof.
  revert l2. induction l1 as [|x l1 IH]; intros [|y l2] H; simpl in H;
    try discriminate; constructor.
  - injection H as Ht Hd Hs Hdl _. repeat split; try assumption.
    destruct (deadline x); try (now left). right. now split.
  - apply IH. now injection H.
Qed.

(** C1, amended. From a first launch, the same actions on the relational
    backend and on the key-value backend, whose clock moves between two
    mutations, leave the entries that the specification gives, in the same
    order: the tasks of the two backends are equal up to their ids and to
    the deadline of a task that has none, NULL in the table and the empty
    string in the stored collection. *)
Theorem backends_converge :
  forall (now : nat -> Z) (actions : list Action),
    strictly_increasing now ->
    let native := run actions (mount (native_world Sqlite.empty_file)) in
    let web := run actions (mount (web_world now)) in
    map native_entry (tasks native) = spec_run actions /\
    map web_entry (tasks web) = spec_run actions /\
    Forall2 same_task (tasks native) (tasks web).
Proof.
  intros now actions Hnow native web.
  assert (Hn : map native_entry (tasks native) = spec_run actions).
  { subst native. rewrite mount_native. rewrite native_run; [reflexivity|].
    do 7 eexists. split; [reflexivity|]. split; [exact I|constructor]. }
  assert (Hw : map web_entry (tasks web) = spec_run actions).
  { subst web. rewrite mount_web. rewrite (web_run now actions Hnow); [reflexivity|].
    do 3 eexists. split; [reflexivity|]. split; [exact I|constructor]. }
  repeat split; try assumption.
  apply entries_same. now rewrite Hn, Hw.
Qed.

Lemma backends_converge_witness :
  map native_entry
    (tasks (run sample_actions (mount (native_world Sqlite.empty_file))))
  = spec_run sample_actions /\
  map web_entry (tasks (run sample_actions (mount (web_world sample_clock))))
  = spec_run sample_actions /\
  Forall2 same_task
    (tasks (run sample_actions (mount (native_world Sqlite.empty_file))))
    (tasks (run sample_actions (mount (web_world sample_clock)))).
Proof.
  apply (backends_converge sample_clock sample_actions).
  intros i j H. unfold sample_clock. lia.
Defined.

Example sample_actions_example :
  tasks (run sample_actions (mount (native_world Sqlite.empty_file)))
  = [mkTask (JNum 1) (JStr "Buy milk") (JStr "") (JStr Termine) JNull;
     mkTask (JNum 3) (JStr "Pay rent") (JStr "") (JStr En_cours) (JStr "2024-03-01")] /\
  tasks (run sample_actions (mount (web_world sample_clock)))
  = [mkTask (JNum 1700000000000) (JStr "Buy milk") (JStr "") (JStr Termine) (JStr "");
     mkTask (JNum 1700000000003) (JStr "Pay rent") (JStr "") (JStr En_cours) (JStr "2024-03-01")].
Proof. split; reflexivity. Qed.

(** C1 as stated fails on the first task added without a deadline: its
    deadline is NULL in the table and the empty string in the stored
    collection. *)
Lemma backends_converge_counterexample :
  ~ Forall2 same_but_id
      (tasks (run [add_buy_milk] (mount (native_world Sqlite.empty_file))))
      (tasks (run [add_buy_milk] (mount (web_world sample_clock)))).
Proof.
  intros H. vm_compute in H.
  inversion H as [|x y l1 l2 Hxy Hrest]; subst.
  destruct Hxy as (_ & _ & _ & Hdl). discriminate.
Qed.

(** * Further properties of the code *)

(** ** database.ts: the key-value backend *)

(** X1. A statement whose text contains INSERT appends one task to the
    stored collection, whatever else the text contains: its id is the
    reading of the clock, its title and description are the first two
    parameters, its status and deadline the third and fourth or, when
    these are falsy or missing, "En cours" and the empty string; the
    result carries that id, and a read returns the collection so grown. *)
Theorem web_insert_roundtrip :
  forall (sql : string) (params : list jsval) (now : Z) (st : Storage),
    includes "INSERT" sql = true ->
    exists t,
      web_getAllAsync (fst (web_runAsync sql params now st))
      = web_getAllAsync st ++ [t] /\
      id t = JNum now /\
      title t = at_index params 0 /\
      description t = at_index params 1 /\
      status t = (if truthy (at_index params 2) then at_index params 2
                  else JStr En_cours) /\
      deadline t = (if truthy (at_index params 3) then at_index params 3
                    else JStr "") /\
      insertId (snd (web_runAsync sql params now st)) = JNum now.
Proof.
  intros sql params now st H. unfold web_runAsync. rewrite H.
  eexists. cbn [fst snd web_getAllAsync getAllTasks]. repeat split.
Qed.

Lemma web_insert_roundtrip_witness :
  exists t,
    web_getAllAsync
      (fst (web_runAsync "INSERT INTO tasks (title) VALUES (?)" [JStr "Pay rent"]
              1700000000000 (Some three_tasks)))
    = web_getAllAsync (Some three_tasks) ++ [t] /\
    id t = JNum 1700000000000 /\
    title t = JStr "Pay rent" /\
    description t = JUndefined /\
    status t = JStr En_cours /\
    deadline t = JStr "" /\
    insertId (snd (web_runAsync "INSERT INTO tasks (title) VALUES (?)"
                     [JStr "Pay rent"] 1700000000000 (Some three_tasks)))
    = JNum 1700000000000.
Proof.
  apply (web_insert_roundtrip "INSERT INTO tasks (title) VALUES (?)"
           [JStr "Pay rent"] 1700000000000 (Some three_tasks)).
  reflexivity.
Defined.

(** X2. A statement read as a delete removes the first stored task whose
    id is strictly equal to [params[0]] and nothing else, one task at most
    even when several share the id; when no task has the id the collection
    stays as it was. *)
Theorem web_delete_frame :
  forall (sql : string) (params : list jsval) (now : Z) (st : Storage),
    includes "INSERT" sql = false ->
    includes "UPDATE" sql = false ->
    includes "DELETE" sql = true ->
    let wanted := at_index params 0 in
    let before := getAllTasks st in
    let after := getAllTasks (fst (web_runAsync sql params now st)) in
    ((forall t, In t before -> strict_eq (id t) wanted = false) ->
     after = before) /\
    (forall l1 t l2,
       before = l1 ++ t :: l2 ->
       (forall u, In u l1 -> strict_eq (id u) wanted = false) ->
       strict_eq (id t) wanted = true ->
       after = l1 ++ l2).
Proof.
  intros sql params now st Hins Hupd Hdel wanted before after.
  subst after. unfold web_runAsync. rewrite Hins, Hupd, Hdel.
  fold before. fold wanted. split.
  - intros Hnone. now rewrite (findIndex_none _ _ Hnone).
  - intros l1 t l2 Hsplit Hl1 Ht. rewrite Hsplit.
    rewrite (findIndex_first (fun t0 => strict_eq (id t0) wanted) l1 t l2 Hl1 Ht).
    cbn [fst getAllTasks]. apply splice1_middle.
Qed.

Lemma web_delete_frame_witness :
  getAllTasks (fst (web_runAsync delete_sql [JNum 9] 0 (Some three_tasks)))
  = three_tasks /\
  getAllTasks (fst (web_runAsync delete_sql [JNum 2] 0 (Some three_tasks)))
  = [mkTask (JNum 1) (JStr "Buy milk") (JStr "") (JStr En_cours) (JStr "")]
    ++ [mkTask (JNum 3) (JStr "Pay rent") (JStr "") (JStr Termine) (JStr "")].
Proof.
  destruct (web_delete_frame delete_sql [JNum 9] 0 (Some three_tasks)
              eq_refl eq_refl eq_refl) as [Hnone _].
  destruct (web_delete_frame delete_sql [JNum 2] 0 (Some three_tasks)
              eq_refl eq_refl eq_refl) as [_ Hfound].
  split.
  - apply Hnone. intros t Ht. simpl in Ht.
    destruct Ht as [<-|[<-|[<-|[]]]]; reflexivity.
  - apply (Hfound
             [mkTask (JNum 1) (JStr "Buy milk") (JStr "") (JStr En_cours) (JStr "")]
             (mkTask (JNum 2) (JStr "Call Ana") (JStr "at noon") (JStr En_cours)
                (JStr "2024-01-05"))
             [mkTask (JNum 3) (JStr "Pay rent") (JStr "") (JStr Termine) (JStr "")]
             eq_refl).
    + intros u Hu. simpl in Hu. destruct Hu as [<-|[]]. reflexivity.
    + reflexivity.
Defined.

(** X3. A statement that is none of the four shapes (an UPDATE that sets
    neither the status nor the deadline, or a text without INSERT, UPDATE
    and DELETE, such as a SELECT) changes no task; the collection is
    written back as read and the result is (1, 1). *)
Theorem web_unrecognized_statement :
  forall (sql : string) (params : list jsval) (now : Z) (st : Storage),
    includes "INSERT" sql = false ->
    (includes "UPDATE" sql = true /\ includes "SET status" sql = false
     /\ includes "SET deadline" sql = false)
    \/ (includes "UPDATE" sql = false /\ includes "DELETE" sql = false) ->
    web_runAsync sql params now st
    = (Some (getAllTasks st), mkRunResult (JNum 1) (JNum 1)).
Proof.
  intros sql params now st Hins [(Hu & Hs & Hd)|(Hu & Hd)];
    unfold web_runAsync; rewrite Hins, Hu, ?Hs, Hd; reflexivity.
Qed.

Lemma web_unrecognized_statement_witness :
  web_runAsync select_all_sql [] 0 (Some three_tasks)
  = (Some three_tasks, mkRunResult (JNum 1) (JNum 1)) /\
  web_runAsync "UPDATE tasks SET title = ? WHERE id = ?" [JStr "x"; JNum 1] 0 None
  = (Some [], mkRunResult (JNum 1) (JNum 1)).
Proof.
  split.
  - apply (web_unrecognized_statement select_all_sql [] 0 (Some three_tasks) eq_refl).
    right. split; reflexivity.
  - apply (web_unrecognized_statement "UPDATE tasks SET title = ? WHERE id = ?"
             [JStr "x"; JNum 1] 0 None eq_refl).
    left. repeat split.
Defined.

Section OpenOnWeb.

Context {DB : Type} {engine : SQLiteDatabase DB}.


End OpenOnWeb.


(** ** database.ts: the relational backend *)

(** X5. On the engine model [setupNativeDatabase] never fails and is
    idempotent: a second run changes nothing. A file without the table
    gets the empty five-column table; an existing table keeps its columns
    and its rows, whatever they are. *)
Theorem setup_idempotent :
  forall (f : Sqlite.File),
    exists f1,
      setupNativeDatabase f = (Ok tt, f1) /\
      setupNativeDatabase f1 = (Ok tt, f1) /\
      match Sqlite.columns f with
      | Some _ => f1 = f
      | None =>
        f1 = Sqlite.mkFile (Some Sqlite.all_columns) []
               (Sqlite.sequence f) (Sqlite.last_rowid f)
      end.
Proof.
  intros [[cs|] rows seq last].
  - exists (Sqlite.mkFile (Some cs) rows seq last).
    rewrite (setup_keeps_existing_table (Sqlite.mkFile (Some cs) rows seq last)
               cs eq_refl).
    repeat split.
  - exists (Sqlite.mkFile (Some Sqlite.all_columns) [] seq last).
    split; [reflexivity|]. split; [|reflexivity].
    apply (setup_keeps_existing_table
             (Sqlite.mkFile (Some Sqlite.all_columns) [] seq last)
             Sqlite.all_columns eq_refl).
Qed.

Section NativeResult.

Context {DB : Type} {engine : SQLiteDatabase DB}.

(** X6. Whatever the engine and the statement, when the engine reports a
    change count that is not a string (a number, as it does), the backend
    resolves with [rowsAffected] 0; its [insertId] is the engine's last
    inserted row id when that is truthy and 0 otherwise. *)
Theorem native_rowsAffected_is_0 :
  forall (sql : string) (params : list jsval) (db db' : DB)
         (result : SQLiteRunResult),
    runAsync sql params db = (Ok result, db') ->
    (forall s, changes result <> JStr s) ->
    native_runAsync sql params db
    = (Ok (mkRunResult (JNum 0)
             (if truthy (lastInsertRowId result) then lastInsertRowId result
              else JNum 0)), db').
Proof.
  intros sql params db db' result Hrun Hcount.
  rewrite (native_runAsync_ok _ _ _ _ _ Hrun).
  destruct result as [count rowid]. cbn in *.
  destruct count; try reflexivity. now destruct (Hcount s).
Qed.

End NativeResult.

Lemma native_rowsAffected_is_0_witness :
  runAsync update_status_sql [JStr Termine; JNum 1] one_row_file
  = (Ok (mkSQLiteRunResult (JNum 1) (JNum 0)),
     Sqlite.mkFile (Some Sqlite.all_columns)
       [mkTask (JNum 1) (JStr "Buy milk") (JStr "") (JStr Termine) JNull] 1 0) /\
  native_runAsync update_status_sql [JStr Termine; JNum 1] one_row_file
  = (Ok (mkRunResult (JNum 0) (JNum 0)),
     Sqlite.mkFile (Some Sqlite.all_columns)
       [mkTask (JNum 1) (JStr "Buy milk") (JStr "") (JStr Termine) JNull] 1 0).
Proof.
  split; [reflexivity|].
  apply (native_rowsAffected_is_0 update_status_sql [JStr Termine; JNum 1]
           one_row_file
           (Sqlite.mkFile (Some Sqlite.all_columns)
              [mkTask (JNum 1) (JStr "Buy milk") (JStr "") (JStr Termine) JNull] 1 0)
           (mkSQLiteRunResult (JNum 1) (JNum 0))).
  - reflexivity.
  - intros s. discriminate.
Defined.

(** ** App.tsx *)

Section FailedOpen.

Context {DB : Type} {engine : SQLiteDatabase DB}.

(** X7. When [openDatabase] fails, the application starts with no handle
    and no task, and every later action does nothing: no call reaches a
    store and the list stays empty. *)
Theorem failed_open_disables_actions :
  forall (w w' : @World DB) (e : error) (actions : list Action),
    openDatabase w = (Throw e, w') ->
    run actions (mount w) = mkApp w' None [].
Proof.
  intros w w' e actions H. unfold mount. rewrite H.
  induction actions as [|x actions IH]; [reflexivity|].
  cbn [run fold_left]. fold (run actions (act (mkApp w' None []) x)).
  replace (act (mkApp w' None []) x) with (mkApp w' None []); [exact IH|].
  destruct x as [task|[|row]|[|row] s|[|row] d]; reflexivity.
Qed.

End FailedOpen.

Lemma failed_open_disables_actions_witness :
  @run unit sample_actions
    (@mount unit broken_engine (mkWorld "android" None (fun _ => 0) O tt))
  = mkApp (mkWorld "android" None (fun _ => 0) O tt) None [].
Proof.
  apply (@failed_open_disables_actions unit broken_engine
           (mkWorld "android" None (fun _ => 0) O tt)
           (mkWorld "android" None (fun _ => 0) O tt)
           (EngineError "disk I/O error") sample_actions).
  reflexivity.
Defined.

(** X8. On a table that lacks one of the four columns of the INSERT (a
    file from before the deadline column, which the setup leaves as it
    is), [addTask] changes nothing: the engine rejects the statement, the
    backend rethrows, the component logs, and neither the table nor the
    list shown moves. *)
Theorem add_on_legacy_table_is_lost :
  forall (task : NewTask) (os : string) (st : Storage) (clk : nat -> Z)
         (inst : nat) (cs : list string) (rows : list Task) (seq last : Z)
         (shown : list Task) (c : string),
    Sqlite.missing_column cs ["title"; "description"; "status"; "deadline"]
    = Some c ->
    addTask task
      (mkApp (mkWorld os st clk inst (Sqlite.mkFile (Some cs) rows seq last))
             (Some nativeDatabase) shown)
    = mkApp (mkWorld os st clk inst (Sqlite.mkFile (Some cs) rows seq last))
            (Some nativeDatabase) shown.
Proof.
  intros task os st clk inst cs rows seq last shown c H.
  unfold addTask, run_and_reload, bind.
  cbn [db world db_runAsync nativeDatabase].
  unfold on_file, native_runAsync, try_catch, bind. cbn [file].
  change (runAsync insert_sql) with Sqlite.sqlite_insert.
  unfold Sqlite.sqlite_insert. cbn [Sqlite.columns]. rewrite H. reflexivity.
Qed.

Lemma add_on_legacy_table_is_lost_witness :
  addTask (mkNewTask "Call Ana" "" "En cours" None)
    (mkApp (native_world legacy_file) (Some nativeDatabase) (Sqlite.rows legacy_file))
  = mkApp (native_world legacy_file) (Some nativeDatabase) (Sqlite.rows legacy_file).
Proof.
  apply (add_on_legacy_table_is_lost (mkNewTask "Call Ana" "" "En cours" None)
           "ios" None (fun _ => 0) O ["id"; "title"; "description"; "status"]
           (Sqlite.rows legacy_file) 1 0 (Sqlite.rows legacy_file) "deadline").
  reflexivity.
Defined.

Lemma run_snoc {DB : Type} (actions : list Action) (x : Action)
    (a : @AppState DB) :
  run (actions ++ [x]) a = act (run actions a) x.
Proof. unfold run. now rewrite fold_left_app. Qed.

Lemma native_run_inv (actions : list Action) :
  forall a : @AppState Sqlite.File, native_inv a -> native_inv (run actions a).
Proof.
  induction actions as [|x actions IH]; intros a Ha; [exact Ha|].
  cbn [run fold_left]. apply IH. now apply native_step.
Qed.

Lemma web_run_inv (now : nat -> Z) (actions : list Action) :
  strictly_increasing now ->
  forall a : @AppState Sqlite.File, web_inv now a -> web_inv now (run actions a).
Proof.
  intros Hnow. induction actions as [|x actions IH]; intros a Ha; [exact Ha|].
  cbn [run fold_left]. apply IH. now apply web_step.
Qed.

Lemma native_inv_start : native_inv (mount (native_world Sqlite.empty_file)).
Proof.
  rewrite mount_native. do 7 eexists.
  split; [reflexivity|]. split; [exact I|constructor].
Qed.

Lemma web_inv_start (now : nat -> Z) : web_inv now (mount (web_world now)).
Proof.
  rewrite mount_web. do 3 eexists.
  split; [reflexivity|]. split; [exact I|constructor].
Qed.

(** X9. From a first launch and after any actions, no two tasks of the
    list have the same id, on the relational backend and, when the clock
    moves between two mutations, on the key-value backend. *)
Theorem ids_stay_distinct :
  forall (now : nat -> Z) (actions : list Action),
    strictly_increasing now ->
    distinct_ids (tasks (run actions (mount (native_world Sqlite.empty_file)))) /\
    distinct_ids (tasks (run actions (mount (web_world now)))).
Proof.
  intros now actions Hnow. split.
  - destruct (native_run_inv actions _ native_inv_start)
      as (os & st & clk & inst & rows & seq & last & -> & Hd & _).
    exact Hd.
  - destruct (web_run_inv now actions Hnow _ (web_inv_start now))
      as (inst & f & stored & -> & Hd & _).
    exact Hd.
Qed.

Lemma ids_stay_distinct_witness :
  distinct_ids
    (tasks (run sample_actions (mount (native_world Sqlite.empty_file)))) /\
  distinct_ids (tasks (run sample_actions (mount (web_world sample_clock)))).
Proof.
  apply (ids_stay_distinct sample_clock sample_actions).
  intros i j H. unfold sample_clock. lia.
Defined.

(** X10. From a first launch and after any actions, adding a task and
    reloading shows the former list followed by exactly one new task: it
    carries the title and the description given, the status given or
    "En cours" when that is empty, the deadline given or none, and an id
    that no former task has. *)
Theorem add_then_reload :
  forall (now : nat -> Z) (actions : list Action) (task : NewTask),
    strictly_increasing now ->
    let native := run actions (mount (native_world Sqlite.empty_file)) in
    let web := run actions (mount (web_world now)) in
    (exists t,
       tasks (addTask task native) = tasks native ++ [t] /\
       native_entry t = entry_of_new task /\
       Forall (fun u => strict_eq (id u) (id t) = false) (tasks native)) /\
    (exists t,
       tasks (addTask task web) = tasks web ++ [t] /\
       web_entry t = entry_of_new task /\
       Forall (fun u => strict_eq (id u) (id t) = false) (tasks web)).
Proof.
  intros now actions task Hnow native web. split.
  - destruct (native_run_inv actions _ native_inv_start)
      as (os & st & clk & inst & rows & seq & last & Hshape & Hd & Hb).
    subst native. rewrite Hshape, native_addTask. cbn zeta. cbn [tasks].
    eexists. split; [reflexivity|]. split; [apply native_entry_of_new|].
    eapply Forall_impl; [|exact Hb]. intros u [m [Hm Hle]].
    rewrite Hm. cbn. apply Z.eqb_neq. lia.
  - destruct (web_run_inv now actions Hnow _ (web_inv_start now))
      as (inst & f & stored & Hshape & Hd & Hb).
    subst web. rewrite Hshape, web_addTask. cbn zeta. cbn [tasks].
    eexists. split; [reflexivity|]. split; [reflexivity|].
    eapply Forall_impl; [|exact Hb]. intros u [i [Hi Hu]].
    rewrite Hu. cbn. apply Z.eqb_neq. specialize (Hnow i inst Hi). lia.
Qed.

Lemma add_then_reload_witness :
  (exists t,
     tasks (addTask (mkNewTask "Call Ana" "" "" None)
              (run sample_actions (mount (native_world Sqlite.empty_file))))
     = tasks (run sample_actions (mount (native_world Sqlite.empty_file))) ++ [t] /\
     native_entry t = entry_of_new (mkNewTask "Call Ana" "" "" None) /\
     Forall (fun u => strict_eq (id u) (id t) = false)
       (tasks (run sample_actions (mount (native_world Sqlite.empty_file))))) /\
  (exists t,
     tasks (addTask (mkNewTask "Call Ana" "" "" None)
              (run sample_actions (mount (web_world sample_clock))))
     = tasks (run sample_actions (mount (web_world sample_clock))) ++ [t] /\
     web_entry t = entry_of_new (mkNewTask "Call Ana" "" "" None) /\
     Forall (fun u => strict_eq (id u) (id t) = false)
       (tasks (run sample_actions (mount (web_world sample_clock))))).
Proof.
  apply (add_then_reload sample_clock sample_actions (mkNewTask "Call Ana" "" "" None)).
  intros i j H. unfold sample_clock. lia.
Defined.

(** X11. On the key-value backend two tasks added at the same reading of
    the clock get the same id, and deleting the second one, the task
    shown last, removes the first instead: the second stays in the
    list. *)
Theorem same_instant_delete :
  forall (now : nat -> Z) (inst : nat) (f : Sqlite.File) (stored : list Task)
         (a b : NewTask),
    now (S inst) = now inst ->
    Forall (fun u => strict_eq (id u) (JNum (now inst)) = false) stored ->
    let app := mkApp (mkWorld "web" (Some stored) now inst f)
                     (Some webDatabase) stored in
    exists ta tb,
      tasks (run [Add a; Add b] app) = stored ++ [ta; tb] /\
      web_entry ta = entry_of_new a /\ web_entry tb = entry_of_new b /\
      tasks (run [Add a; Add b; Delete (S (List.length stored))] app)
      = stored ++ [tb].
Proof.
  intros now inst f stored a b Hsame Hfresh app. subst app.
  unfold run. cbn [fold_left act].
  rewrite web_addTask. cbn zeta. rewrite web_addTask. cbn zeta. cbn [tasks].
  rewrite Hsame. rewrite <- !app_assoc. cbn [app].
  do 2 eexists. split; [reflexivity|]. split; [reflexivity|]. split; [reflexivity|].
  replace (nth_error (stored ++ [_; _]) (S (List.length stored)))
    with (Some (mkTask (JNum (now inst)) (JStr (new_title b))
                  (JStr (new_description b))
                  (js_or (JStr (new_status b)) (JStr En_cours))
                  (js_or (optional (new_deadline b)) (JStr "")))).
  - rewrite web_deleteTask. cbn zeta. cbn [tasks id].
    rewrite (findIndex_first (fun t => strict_eq (id t) (JNum (now inst))) stored).
    + apply splice1_middle.
    + intros u Hu. rewrite Forall_forall in Hfresh. now apply Hfresh.
    + cbn. apply Z.eqb_refl.
  - symmetry. clear. induction stored as [|x l IH]; [reflexivity|exact IH].
Qed.

Lemma same_instant_delete_witness :
  exists ta tb,
    tasks (run [add_buy_milk; Add (mkNewTask "Call Ana" "" "" None)]
             (mkApp (mkWorld "web" (Some []) (fun _ => 1700000000000) O
                       Sqlite.empty_file) (Some webDatabase) []))
    = [] ++ [ta; tb] /\
    web_entry ta = entry_of_new (mkNewTask "Buy milk" "" "En cours" None) /\
    web_entry tb = entry_of_new (mkNewTask "Call Ana" "" "" None) /\
    tasks (run [add_buy_milk; Add (mkNewTask "Call Ana" "" "" None); Delete 1]
             (mkApp (mkWorld "web" (Some []) (fun _ => 1700000000000) O
                       Sqlite.empty_file) (Some webDatabase) []))
    = [] ++ [tb].
Proof.
  apply (same_instant_delete (fun _ => 1700000000000) O Sqlite.empty_file []
           (mkNewTask "Buy milk" "" "En cours" None)
           (mkNewTask "Call Ana" "" "" None)).
  - reflexivity.
  - constructor.
Defined.

(** ** TaskList.tsx: the press on the status *)

Lemma nth_error_assign_at {A : Type} (f : A -> A) (l : list A) (k : nat) (x : A) :
  nth_error l k = Some x -> nth_error (assign_at k f l) k = Some (f x).
Proof.
  revert k. induction l as [|a l IH]; intros [|k] H; simpl in *; try discriminate.
  - now injection H as ->.
  - now apply IH.
Qed.

Lemma assign_at_restore {A : Type} (f g : A -> A) (l : list A) (k : nat) (x : A) :
  nth_error l k = Some x -> g (f x) = x ->
  assign_at k g (assign_at k f l) = l.
Proof.
  revert k. induction l as [|a l IH]; intros [|k] H Hx; simpl in *; try discriminate.
  - injection H as ->. now rewrite Hx.
  - f_equal. now apply IH.
Qed.

Lemma toggle_back (t : Task) :
  status t = JStr En_cours \/ status t = JStr Termine ->
  set_status (JStr (Handlers.toggled (set_status (JStr (Handlers.toggled t)) t)))
    (set_status (JStr (Handlers.toggled t)) t) = t.
Proof.
  destruct t as [i ti de s dl]. cbn [status].
  intros [->| ->]; reflexivity.
Qed.

Lemma native_press_status (row : nat) (t : Task) (a : @AppState Sqlite.File) :
  native_inv a -> nth_error (tasks a) row = Some t ->
  native_inv (Handlers.press_status row a) /\
  tasks (Handlers.press_status row a)
  = assign_at row (set_status (JStr (Handlers.toggled t))) (tasks a).
Proof.
  intros (os & st & clk & inst & rows & seq & last & -> & Hd & Hb) Hk.
  cbn [tasks] in *. unfold Handlers.press_status. cbn [tasks]. rewrite Hk.
  assert (Hn : exists n, id t = JNum n).
  { rewrite Forall_forall in Hb.
    destruct (Hb t (nth_error_In _ _ Hk)) as [n [Hn _]]. now exists n. }
  destruct Hn as [n Hn]. rewrite Hn, native_updateTaskStatus.
  cbn zeta. cbn [tasks].
  rewrite <- Hn, (distinct_map _ rows row t Hd Hk).
  split; [|reflexivity].
  do 7 eexists. split; [reflexivity|].
  split; [now apply distinct_assign_at|].
  apply Forall_assign_at; [|exact Hb]. now intros u Hu.
Qed.

Lemma web_press_status (now : nat -> Z) (row : nat) (t : Task)
    (a : @AppState Sqlite.File) :
  web_inv now a -> nth_error (tasks a) row = Some t ->
  web_inv now (Handlers.press_status row a) /\
  tasks (Handlers.press_status row a)
  = assign_at row (set_status (JStr (Handlers.toggled t))) (tasks a).
Proof.
  intros (inst & f & stored & -> & Hd & Hb) Hk.
  cbn [tasks] in *. unfold Handlers.press_status. cbn [tasks]. rewrite Hk.
  rewrite web_updateTaskStatus. cbn zeta. cbn [tasks].
  rewrite (distinct_findIndex stored row t Hd Hk).
  split; [|reflexivity].
  do 3 eexists. split; [reflexivity|].
  split; [now apply distinct_assign_at|].
  apply Forall_assign_at; [now intros u Hu|]. now apply past_instant.
Qed.

(** X12. From a first launch and after any actions, pressing the status
    of a task once gives it the other of the two statuses and leaves the
    rest of the list alone, and pressing it twice gives the list back, when
    the task has one of the two statuses; this on both backends, the
    key-value one with a clock that moves between two mutations. *)
Theorem press_status_twice :
  forall (now : nat -> Z) (actions : list Action) (row : nat),
    strictly_increasing now ->
    let native := run actions (mount (native_world Sqlite.empty_file)) in
    let web := run actions (mount (web_world now)) in
    (forall t,
       nth_error (tasks native) row = Some t ->
       status t = JStr En_cours \/ status t = JStr Termine ->
       tasks (Handlers.press_status row native)
       = assign_at row (set_status (JStr (Handlers.toggled t))) (tasks native) /\
       tasks (Handlers.press_status row (Handlers.press_status row native))
       = tasks native) /\
    (forall t,
       nth_error (tasks web) row = Some t ->
       status t = JStr En_cours \/ status t = JStr Termine ->
       tasks (Handlers.press_status row web)
       = assign_at row (set_status (JStr (Handlers.toggled t))) (tasks web) /\
       tasks (Handlers.press_status row (Handlers.press_status row web))
       = tasks web).
Proof.
  intros now actions row Hnow native web. split; intros t Hk Hs.
  - assert (Ha := native_run_inv actions _ native_inv_start). fold native in Ha.
    destruct (native_press_status row t native Ha Hk) as [Ha1 H1].
    split; [exact H1|].
    assert (Hk1 := nth_error_assign_at (set_status (JStr (Handlers.toggled t)))
                     _ _ _ Hk).
    rewrite <- H1 in Hk1.
    destruct (native_press_status row _ _ Ha1 Hk1) as [_ H2].
    rewrite H2, H1. apply (assign_at_restore _ _ _ _ t Hk). now apply toggle_back.
  - assert (Ha := web_run_inv now actions Hnow _ (web_inv_start now)). fold web in Ha.
    destruct (web_press_status now row t web Ha Hk) as [Ha1 H1].
    split; [exact H1|].
    assert (Hk1 := nth_error_assign_at (set_status (JStr (Handlers.toggled t)))
                     _ _ _ Hk).
    rewrite <- H1 in Hk1.
    destruct (web_press_status now row _ _ Ha1 Hk1) as [_ H2].
    rewrite H2, H1. apply (assign_at_restore _ _ _ _ t Hk). now apply toggle_back.
Qed.

Lemma press_status_twice_witness :
  tasks (Handlers.press_status 0
           (run sample_actions (mount (native_world Sqlite.empty_file))))
  = assign_at 0 (set_status (JStr En_cours))
      (tasks (run sample_actions (mount (native_world Sqlite.empty_file)))) /\
  tasks (Handlers.press_status 0
           (Handlers.press_status 0
              (run sample_actions (mount (native_world Sqlite.empty_file)))))
  = tasks (run sample_actions (mount (native_world Sqlite.empty_file))).
Proof.
  destruct (press_status_twice sample_clock sample_actions 0) as [Hnative _].
  - intros i j H. unfold sample_clock. lia.
  - apply (Hnative (mkTask (JNum 1) (JStr "Buy milk") (JStr "") (JStr Termine) JNull)).
    + reflexivity.
    + right. reflexivity.
Defined.

(** ** TaskForm.tsx *)

Lemma trimStart_nonblank (s : string) :
  every is_space s = false ->
  exists c rest, trimStart s = String c rest /\ is_space c = false.
Proof.
  induction s as [|c s IH]; simpl; [discriminate|].
  destruct (is_space c) eqn:E; simpl; intros H.
  - now apply IH.
  - now exists c, s.
Qed.

Lemma trim_nonblank (s : string) : every is_space s = false -> trim s <> "".
Proof.
  intros H. destruct (trimStart_nonblank s H) as (c & rest & Hs & Hc).
  unfold trim. rewrite Hs. simpl. rewrite Hc.
  destruct (trimEnd rest); discriminate.
Qed.

(** X13. A form whose title is empty or made of white space submits
    nothing, keeps what was typed, and leaves the application as it was.
    Any other title is submitted as typed, untrimmed, with the description
    and the status of the form and no deadline, and the three inputs are
    cleared. *)
Theorem form_submit :
  forall (form : TaskForm.FormState),
    (every is_space (TaskForm.form_title form) = true ->
     TaskForm.handleSubmit form = (form, None) /\
     forall app, Handlers.submit form app = (form, app)) /\
    (every is_space (TaskForm.form_title form) = false ->
     TaskForm.handleSubmit form
     = (TaskForm.mkForm "" "" (TaskForm.form_status form) "",
        Some (mkNewTask (TaskForm.form_title form)
                (TaskForm.form_description form)
                (TaskForm.form_status form) None))).
Proof.
  intros form. split; intros H.
  - assert (Hs : TaskForm.handleSubmit form = (form, None)).
    { unfold TaskForm.handleSubmit. now rewrite (trim_blank _ H). }
    split; [exact Hs|]. intros app. unfold Handlers.submit. now rewrite Hs.
  - unfold TaskForm.handleSubmit.
    destruct (trim (TaskForm.form_title form)) eqn:E; [|reflexivity].
    now destruct (trim_nonblank _ H).
Qed.

Lemma form_submit_witness :
  (TaskForm.handleSubmit (TaskForm.mkForm "   " "soon" "En cours" "")
   = (TaskForm.mkForm "   " "soon" "En cours" "", None) /\
   forall app,
     Handlers.submit (TaskForm.mkForm "   " "soon" "En cours" "") app
     = (TaskForm.mkForm "   " "soon" "En cours" "", app)) /\
  TaskForm.handleSubmit (TaskForm.mkForm " Buy milk " "soon" "En cours" "")
  = (TaskForm.mkForm "" "" "En cours" "",
     Some (mkNewTask " Buy milk " "soon" "En cours" None)).
Proof.
  split.
  - apply (form_submit (TaskForm.mkForm "   " "soon" "En cours" "")). reflexivity.
  - apply (form_submit (TaskForm.mkForm " Buy milk " "soon" "En cours" "")).
    reflexivity.
Defined.

(** ** TaskList.tsx: the filter *)

Import FilterSpec.

Lemma normalized_blank (q : string) : trim q = "" -> normalized q = "".
Proof. unfold normalized. now intros ->. Qed.


Section FilterMore.

Context {runtime : Runtime}.

Lemma matches_number_query :
  forall (q : string) (t : Task),
    strings_only t -> all_digits q = true ->
    matches q t = Ok (text_matches q t || date_matches q t).
Proof.
  intros q t ((s & Hs) & (ti & Hti) & (de & Hde)) Hq.
  unfold matches, text_matches, date_matches, status_contains, text_contains.
  rewrite Hs, Hti, Hde, Hq. cbn [as_string ebind].
  destruct (includes q (strip_diacritics (toLowerCase s))); [reflexivity|].
  destruct (includes q (toLowerCase ti)); [reflexivity|].
  destruct (includes q (toLowerCase de)); [reflexivity|].
  cbn [orb]. destruct (truthy (deadline t)); [|reflexivity].
  destruct (new_Date (deadline t)) as [date|]; [|reflexivity].
  cbn [andb]. now destruct (_ || _ || _).
Qed.

Lemma filteredTasks_on_texts :
  forall (tasks : list Task) (searchQuery : string),
    Forall strings_only tasks ->
    every is_space searchQuery = false ->
    all_digits (normalized searchQuery) = false ->
    filteredTasks tasks searchQuery
    = (filter (text_matches (normalized searchQuery)) tasks, None).
Proof.
  intros tasks q Htasks Hq Hdigits. unfold filteredTasks.
  destruct (trim q =? "")%string eqn:E.
  - apply String.eqb_eq in E. now destruct (trim_nonblank q Hq).
  - fold (normalized q).
    rewrite (filter_exn_total _ (text_matches (normalized q))); [reflexivity|].
    eapply Forall_impl; [|exact Htasks].
    intros t ((s & Hs) & (ti & Hti) & (de & Hde)).
    rewrite (matches_text_query _ t s ti de Hs Hti Hde Hdigits).
    unfold text_matches, status_contains, text_contains.
    now rewrite Hs, Hti, Hde.
Qed.

(** X14. On tasks whose status, title and description are strings, a
    query that is not blank and not a number keeps, in their order, the
    tasks whose status without case and accents, or whose lower-case title
    or description, contains the normalized query, and only those: the
    deadline of a task plays no part, and no error is set. *)
Theorem filter_text_query :
  forall (tasks : list Task) (searchQuery : string),
    Forall strings_only tasks ->
    every is_space searchQuery = false ->
    all_digits (normalized searchQuery) = false ->
    filteredTasks tasks searchQuery
    = (filter (text_matches (normalized searchQuery)) tasks, None).
Proof.
  intros tasks searchQuery Htasks Hquery Hdigits.
  now apply filteredTasks_on_texts.
Qed.

(** X15. On such tasks a query made of digits keeps, in their order, the
    tasks matched on their texts as above and the tasks whose deadline
    parses and has the digits in its day of the month on two digits, its
    month on two digits or its year; a task whose deadline is absent or
    does not parse is kept on its texts only, and no error is set. *)
Theorem filter_number_query :
  forall (tasks : list Task) (searchQuery : string),
    Forall strings_only tasks ->
    all_digits (normalized searchQuery) = true ->
    filteredTasks tasks searchQuery
    = (filter (fun t => text_matches (normalized searchQuery) t
                        || date_matches (normalized searchQuery) t) tasks,
       None) /\
    (forall t,
       truthy (deadline t) = false \/ new_Date (deadline t) = None ->
       date_matches (normalized searchQuery) t = false).
Proof.
  intros tasks q Htasks Hdigits. split.
  - unfold filteredTasks.
    destruct (trim q =? "")%string eqn:E.
    + apply String.eqb_eq in E. rewrite (normalized_blank q E) in Hdigits.
      discriminate.
    + fold (normalized q).
      rewrite (filter_exn_total _
        (fun t => text_matches (normalized q) t || date_matches (normalized q) t));
        [reflexivity|].
      eapply Forall_impl; [|exact Htasks].
      intros t Ht. now apply matches_number_query.
  - intros t [H|H]; unfold date_matches; rewrite H; [reflexivity|].
    apply andb_false_r.
Qed.

Lemma filter_exn_throws (callback : Task -> exn bool) (tasks : list Task) (t : Task) :
  In t tasks -> (exists e, callback t = Throw e) ->
  exists e, filter_exn callback tasks = Throw e.
Proof.
  induction tasks as [|a l IH]; intros Hin Ht; [destruct Hin|].
  simpl. destruct (callback a) as [keep|e] eqn:Ea.
  - destruct Hin as [->|Hin].
    + destruct Ht as [e Ht]. congruence.
    + destruct (IH Hin Ht) as [e He]. exists e. now rewrite He.
  - now exists e.
Qed.

(** X16. When the query is not blank and some task of the list has a
    status that is not a string, the filter throws inside, is caught, and
    yields no task at all together with the error message. *)
Theorem filter_fails_on_bad_status :
  forall (tasks : list Task) (searchQuery : string) (t : Task),
    every is_space searchQuery = false ->
    In t tasks ->
    (forall s, status t <> JStr s) ->
    filteredTasks tasks searchQuery = ([], Some filtering_failed).
Proof.
  intros tasks q t Hq Hin Hs. unfold filteredTasks.
  destruct (trim q =? "")%string eqn:E.
  - apply String.eqb_eq in E. now destruct (trim_nonblank q Hq).
  - destruct (filter_exn_throws (matches (strip_diacritics (toLowerCase (trim q))))
                tasks t Hin) as [e He].
    + unfold matches. destruct (status t) as [| |b|n|s]; cbn; eauto.
      now destruct (Hs s).
    + now rewrite He.
Qed.

Lemma filter_exn_ok (callback : Task -> exn bool) (tasks kept : list Task) :
  filter_exn callback tasks = Ok kept ->
  kept = filter (fun t => match callback t with
                          | Ok keep => keep
                          | Throw _ => false
                          end) tasks.
Proof.
  revert kept. induction tasks as [|a l IH]; simpl; intros kept H.
  - now injection H.
  - destruct (callback a) as [keep|e]; [|discriminate]. cbn in H.
    destruct (filter_exn callback l) as [r|e]; [|discriminate]. cbn in H.
    injection H as <-. now rewrite (IH r eq_refl).
Qed.

(** X17. Whatever the tasks and the query, the list that the filter
    yields is the given list with some tasks left out: nothing is added,
    repeated or moved; and when an error is set the list is empty. *)
Theorem filter_keeps_order :
  forall (tasks : list Task) (searchQuery : string),
    (exists keep, fst (filteredTasks tasks searchQuery) = filter keep tasks) /\
    (snd (filteredTasks tasks searchQuery) = None
     \/ fst (filteredTasks tasks searchQuery) = []).
Proof.
  intros tasks q. unfold filteredTasks.
  destruct (trim q =? "")%string.
  - split; [|now left]. exists (fun _ => true). cbn.
    symmetry. apply filter_all. now apply Forall_forall.
  - destruct (filter_exn _ tasks) as [kept|e] eqn:E.
    + split; [|now left]. eexists. cbn. exact (filter_exn_ok _ _ _ E).
    + split; [|now right]. exists (fun _ => false). cbn. clear E.
      induction tasks as [|a l IH]; [reflexivity|exact IH].
Qed.

End FilterMore.

Ltac strings_only_task :=
  split; [eexists; reflexivity | split; eexists; reflexivity].

Lemma sample_tasks_strings_only : Forall strings_only (rapport :: three_tasks).
Proof. repeat (apply Forall_cons; [strings_only_task|]). apply Forall_nil. Qed.

Lemma filter_text_query_witness :
  @filteredTasks Utc.runtime (rapport :: three_tasks) " MILK "
  = (filter (text_matches (normalized " MILK ")) (rapport :: three_tasks), None).
Proof.
  apply (@filter_text_query Utc.runtime (rapport :: three_tasks) " MILK ").
  - exact sample_tasks_strings_only.
  - reflexivity.
  - reflexivity.
Defined.

Lemma filter_number_query_witness :
  @filteredTasks Utc.runtime (rapport :: three_tasks) "01"
  = (filter (fun t => text_matches (normalized "01") t
                      || @date_matches Utc.runtime (normalized "01") t)
       (rapport :: three_tasks), None) /\
  (forall t,
     truthy (deadline t) = false \/ @new_Date Utc.runtime (deadline t) = None ->
     @date_matches Utc.runtime (normalized "01") t = false).
Proof.
  apply (@filter_number_query Utc.runtime (rapport :: three_tasks) "01").
  - exact sample_tasks_strings_only.
  - reflexivity.
Defined.

Example filter_queries_example :
  fst (@filteredTasks Utc.runtime (rapport :: three_tasks) " MILK ")
  = [mkTask (JNum 1) (JStr "Buy milk") (JStr "") (JStr En_cours) (JStr "")] /\
  fst (@filteredTasks Utc.runtime (rapport :: three_tasks) "01")
  = [mkTask (JNum 2) (JStr "Call Ana") (JStr "at noon") (JStr En_cours)
       (JStr "2024-01-05")] /\
  fst (@filteredTasks Utc.runtime (rapport :: three_tasks) "2024")
  = [mkTask (JNum 2) (JStr "Call Ana") (JStr "at noon") (JStr En_cours)
       (JStr "2024-01-05")].
Proof. repeat split. Qed.

Lemma filter_fails_on_bad_status_witness :
  @filteredTasks Utc.runtime
    (three_tasks ++ [mkTask (JNum 4) (JStr "Pay rent") (JStr "") JUndefined (JStr "")])
    "milk"
  = ([], Some filtering_failed).
Proof.
  apply (@filter_fails_on_bad_status Utc.runtime _ "milk"
           (mkTask (JNum 4) (JStr "Pay rent") (JStr "") JUndefined (JStr ""))).
  - reflexivity.
  - apply in_or_app. right. now left.
  - intros s. discriminate.
Defined.

Section FilterQuery.

Context {runtime : Runtime}.


End FilterQuery.


Lemma length_toLowerCase (s : string) :
  String.length (toLowerCase s) = String.length s.
Proof. induction s as [|c s IH]; simpl; [reflexivity|now rewrite IH]. Qed.







Section AccentedTitle.

Context {runtime : Runtime}.


End AccentedTitle.


Example cafe_is_not_found :
  fst (@filteredTasks Utc.runtime [cafe] ("Caf" ++ String e_acute "")) = [] /\
  fst (@filteredTasks Utc.runtime [buy_milk] "Buy milk") = [buy_milk].
Proof. split; reflexivity. Qed.

(** ** TaskList.tsx: the sort and the rendering of a deadline *)

Lemma insert_sorted_perm (compare : Task -> Task -> exn jsnum) (x : Task)
    (l : list Task) :
  (forall y, In y l -> exists v, compare x y = Ok v) ->
  exists r, insert_sorted compare x l = Ok r /\ Permutation (x :: l) r.
Proof.
  induction l as [|y l IH]; intros H; simpl.
  - exists [x]. split; [reflexivity|apply Permutation_refl].
  - destruct (H y (or_introl eq_refl)) as [v Hv]. rewrite Hv. cbn [ebind].
    destruct (positive v).
    + destruct IH as [r [Hr Hp]]; [intros z Hz; apply H; now right|].
      rewrite Hr. cbn [ebind]. exists (y :: r). split; [reflexivity|].
      eapply Permutation_trans; [apply perm_swap|]. now apply perm_skip.
    + eexists. split; [reflexivity|apply Permutation_refl].
Qed.

Lemma sort_perm (compare : Task -> Task -> exn jsnum) (l : list Task) :
  (forall x y, In x l -> In y l -> exists v, compare x y = Ok v) ->
  exists r, sort compare l = Ok r /\ Permutation l r.
Proof.
  induction l as [|x l IH]; intros H; simpl.
  - exists []. split; [reflexivity|apply perm_nil].
  - destruct IH as [r [Hr Hp]]; [intros a b Ha Hb; apply H; now right|].
    rewrite Hr. cbn [ebind].
    destruct (insert_sorted_perm compare x r) as [r' [Hr' Hp']].
    + intros y Hy. apply H; [now left|right].
      eapply Permutation_in; [apply Permutation_sym, Hp|exact Hy].
    + exists r'. split; [exact Hr'|].
      eapply Permutation_trans; [apply perm_skip, Hp|exact Hp'].
Qed.

Section SortMore.

Context {runtime : Runtime}.

(** X20. The sort by deadline never throws, whatever the deadlines, and
    the sort by status does not throw when every status is a string; the
    sorted list then holds the same tasks as the list given, each as many
    times. *)
Theorem sort_keeps_tasks :
  forall (l : list Task) (sortBy : SortBy) (sortOrder : SortOrder),
    (sortBy = by_status -> Forall (fun t => exists s, status t = JStr s) l) ->
    exists sorted,
      sortedTasks l sortBy sortOrder = Ok sorted /\ Permutation l sorted.
Proof.
  intros l sortBy sortOrder H. unfold sortedTasks. apply sort_perm.
  intros x y Hx Hy. destruct sortBy.
  - specialize (H eq_refl). rewrite Forall_forall in H.
    destruct (H x Hx) as [sx Hsx]. destruct (H y Hy) as [sy Hsy].
    unfold compareTasks. rewrite Hsx, Hsy. destruct sortOrder; cbn; eauto.
  - rewrite compareTasks_by_deadline. eauto.
Qed.

(** X21. On a list in which every deadline is absent or parseable, the
    ascending sort by deadline puts no task before a task with an earlier
    date, and the descending sort puts no task before a task with a later
    date, a task without a deadline counting as later than every date. *)
Theorem sort_by_deadline_ordered :
  forall (l : list Task),
    no_invalid_date l ->
    exists up down,
      sortedTasks l by_deadline asc = Ok up /\
      sortedTasks l by_deadline desc = Ok down /\
      StronglySorted (fun x y => earlier (rank y) (rank x) = false) up /\
      StronglySorted (fun x y => earlier (rank x) (rank y) = false) down.
Proof.
  intros l Hl.
  rewrite (sortedTasks_by_rank l asc Hl), (sortedTasks_by_rank l desc Hl).
  do 2 eexists. split; [reflexivity|]. split; [reflexivity|]. split.
  - apply (insertion_sort_sorted earlier earlier_irrefl earlier_trans earlier_total).
  - apply (insertion_sort_sorted (fun a b => earlier b a)).
    + intros a. apply earlier_irrefl.
    + intros a b c Hab Hbc. now apply (earlier_trans c b a).
    + intros a b Hab Hba. now apply earlier_total.
Qed.

(** What [formatDate] shows for a text that is not empty and not a
    date. *)
Lemma formatDate_invalid (d : string) :
  d <> "" -> Date_parse d = None -> formatDate (JStr d) = "Date invalide".
Proof.
  intros Hd Hp. unfold formatDate. cbn [truthy new_Date].
  apply String.eqb_neq in Hd. rewrite Hd, Hp. reflexivity.
Qed.

(** X22. From a first launch and after any actions, setting the deadline
    of the task shown at a position to a text that is not empty and that
    [Date] does not parse stores the text as it is, on both backends, and
    the list then renders that deadline as "Date invalide". *)
Theorem invalid_deadline_is_flagged :
  forall (now : nat -> Z) (actions : list Action) (row : nat) (d : string),
    strictly_increasing now ->
    d <> "" -> Date_parse d = None ->
    let native := run actions (mount (native_world Sqlite.empty_file)) in
    let web := run actions (mount (web_world now)) in
    (row < List.length (tasks native))%nat ->
    (exists t, nth_error (tasks (act native (SetDeadline row d))) row = Some t /\
               deadline t = JStr d /\
               formatDate (deadline t) = "Date invalide") /\
    (exists t, nth_error (tasks (act web (SetDeadline row d))) row = Some t /\
               deadline t = JStr d /\
               formatDate (deadline t) = "Date invalide").
Proof.
  intros now actions row d Hnow Hd Hp native web Hrow.
  assert (Hn := native_run_inv actions _ native_inv_start). fold native in Hn.
  assert (Hw := web_run_inv now actions Hnow _ (web_inv_start now)). fold web in Hw.
  assert (En : map native_entry (tasks native) = spec_run actions).
  { unfold native. rewrite (native_run actions _ native_inv_start).
    now rewrite mount_native. }
  assert (Ew : map web_entry (tasks web) = spec_run actions).
  { unfold web. rewrite (web_run now actions Hnow _ (web_inv_start now)).
    now rewrite mount_web. }
  destruct (native_step native (SetDeadline row d) Hn) as [_ Sn].
  destruct (web_step now web (SetDeadline row d) Hnow Hw) as [_ Sw].
  cbn [spec_act] in Sn, Sw.
  assert (Hlen : (row < List.length (map native_entry (tasks native)))%nat)
    by now rewrite length_map.
  destruct (nth_error (map native_entry (tasks native)) row) as [e|] eqn:He;
    [|apply nth_error_None in He; lia].
  assert (Hwe : nth_error (map web_entry (tasks web)) row = Some e)
    by now rewrite Ew, <- En.
  apply (nth_error_assign_at (entry_set_deadline (JStr d))) in He, Hwe.
  rewrite <- Sn in He. rewrite <- Sw in Hwe.
  rewrite nth_error_map in He, Hwe.
  split.
  - destruct (nth_error (tasks (act native (SetDeadline row d))) row) as [t|];
      [|discriminate].
    exists t. split; [reflexivity|]. cbn in He. injection He as He.
    assert (Hdl : deadline t = JStr d).
    { destruct e as [[[a b] c] dl]. unfold native_entry in He. cbn in He.
      injection He as _ _ _ Hdl.
      destruct (deadline t); try exact Hdl. injection Hdl as <-. now destruct Hd. }
    split; [exact Hdl|]. rewrite Hdl. now apply formatDate_invalid.
  - destruct (nth_error (tasks (act web (SetDeadline row d))) row) as [t|];
      [|discriminate].
    exists t. split; [reflexivity|]. cbn in Hwe. injection Hwe as Hwe.
    assert (Hdl : deadline t = JStr d).
    { destruct e as [[[a b] c] dl]. unfold web_entry in Hwe. cbn in Hwe.
      now injection Hwe as _ _ _ Hdl. }
    split; [exact Hdl|]. rewrite Hdl. now apply formatDate_invalid.
Qed.

End SortMore.

Lemma sort_keeps_tasks_witness :
  exists sorted,
    @sortedTasks Utc.runtime (rapport :: three_tasks) by_status desc = Ok sorted /\
    Permutation (rapport :: three_tasks) sorted.
Proof.
  apply (@sort_keeps_tasks Utc.runtime (rapport :: three_tasks) by_status desc).
  intros _. repeat (apply Forall_cons; [eexists; reflexivity|]). apply Forall_nil.
Defined.

Lemma sort_by_deadline_ordered_witness :
  exists up down,
    @sortedTasks Utc.runtime [buy_milk; call_ana; pay_rent; file_taxes] by_deadline asc
    = Ok up /\
    @sortedTasks Utc.runtime [buy_milk; call_ana; pay_rent; file_taxes] by_deadline desc
    = Ok down /\
    StronglySorted
      (fun x y => earlier (@rank Utc.runtime y) (@rank Utc.runtime x) = false) up /\
    StronglySorted
      (fun x y => earlier (@rank Utc.runtime x) (@rank Utc.runtime y) = false) down.
Proof.
  apply (@sort_by_deadline_ordered Utc.runtime
           [buy_milk; call_ana; pay_rent; file_taxes]).
  repeat (apply Forall_cons;
          [first [left; reflexivity | right; reflexivity]|]).
  apply Forall_nil.
Defined.

Lemma invalid_deadline_is_flagged_witness :
  (exists t,
     nth_error
       (tasks (act (run sample_actions (mount (native_world Sqlite.empty_file)))
                 (SetDeadline 0 "not-a-date"))) 0 = Some t /\
     deadline t = JStr "not-a-date" /\
     @formatDate Utc.runtime (deadline t) = "Date invalide") /\
  (exists t,
     nth_error
       (tasks (act (run sample_actions (mount (web_world sample_clock)))
                 (SetDeadline 0 "not-a-date"))) 0 = Some t /\
     deadline t = JStr "not-a-date" /\
     @formatDate Utc.runtime (deadline t) = "Date invalide").
Proof.
  apply (@invalid_deadline_is_flagged Utc.runtime sample_clock sample_actions 0
           "not-a-date").
  - intros i j H. unfold sample_clock. lia.
  - discriminate.
  - reflexivity.
  - cbn. lia.
Defined.
